(** * KUHUL PoC: the replay fold, the chat subcommand and the provider client

    A shallow embedding of [kuhul_poc/cli.py] and [kuhul_poc/providers.py].
    Python values that come out of [json.loads] are modelled by [json];
    exceptions by [exn] and the [result] type; the files, the process
    environment, the clock and the remote server by the [Sys] record, which
    effectful code threads through the monad [M].

    The modules [state], [ids], [session_log], [bus], [engine] and
    [svg_renderer] are imported by [cli.py] but their source is not part of
    the two files: what [cli.py] needs of them is taken from the
    specification (definitions marked so) or left as a parameter ([Deps]).

    Left out: the parsing of the command line (the parsed arguments are the
    input of [main]), the creation of the output directory, and failures of
    the storage layer. *)

From Stdlib Require Import Floats.SpecFloat.
From Stdlib Require Import Ascii.
From stdpp Require Import gmap strings list fin_maps pretty.

#[local] Set Warnings "-register-all".
Local Open Scope Z_scope.

(** * Python values *)

(** What [json.loads] returns: [None], [bool], [int], [float], [str], [list]
    and [dict].  A dict is kept as its items in insertion order; the keys of
    a Python dict are pairwise distinct, so the first binding of a key is the
    only one. *)
Inductive json : Type :=
| JNull
| JBool (b : bool)
| JInt (n : Z)
| JFloat (f : spec_float)
| JStr (s : string)
| JList (l : list json)
| JDict (d : list (string * json)).

Abbreviation dict := (list (string * json)).

(** [bool(v)]: the truth value Python gives to [v] in [if v], [not v] and
    [v or w]. *)
Definition truthy (v : json) : bool :=
  match v with
  | JNull => false
  | JBool b => b
  | JInt n => negb (n =? 0)
  | JFloat (S754_zero _) => false
  | JFloat _ => true
  | JStr s => negb (String.eqb s "")
  | JList l => match l with [] => false | _ => true end
  | JDict d => match d with [] => false | _ => true end
  end.

(** [a or b] *)
Definition py_or (a b : json) : json := if truthy a then a else b.

(** [v == s] for a string literal [s]: only a [str] equals a [str]. *)
Definition py_eq_str (v : json) (s : string) : bool :=
  match v with
  | JStr t => String.eqb t s
  | _ => false
  end.

(** [v in (s1, s2, ...)] for a tuple of string literals. *)
Definition py_in_strs (v : json) (ss : list string) : bool :=
  existsb (py_eq_str v) ss.

(** [isinstance(v, dict)] *)
Definition isinstance_dict (v : json) : bool :=
  match v with JDict _ => true | _ => false end.

(** [d.get(k, default)] on a dict. *)
Fixpoint dict_get_default (d : dict) (k : string) (default : json) : json :=
  match d with
  | [] => default
  | (k', v) :: rest => if String.eqb k' k then v else dict_get_default rest k default
  end.

(** [d.get(k)] on a dict: [None] when the key is absent. *)
Definition dict_get (d : dict) (k : string) : json := dict_get_default d k JNull.

(** * Exceptions *)

Inductive exn : Type :=
| ProviderError (msg : string)
| AttributeError
| KeyError
| IndexError
| TypeError
| CorruptLog
| UnrecognizedOperation
| InvalidArgument.

Inductive result (A : Type) : Type :=
| Ok (a : A)
| Raise (e : exn).
Arguments Ok {A} a.
Arguments Raise {A} e.

Definition rbind {A B} (r : result A) (k : A -> result B) : result B :=
  match r with
  | Ok a => k a
  | Raise e => Raise e
  end.

Declare Scope py_scope.
Delimit Scope py_scope with py.
Notation "'let*' x ':=' c 'in' k" := (rbind c (fun x => k))
  (at level 10, x name, c at level 100, k at level 200) : py_scope.
Local Open Scope py_scope.

(** [v.get(k)] on an arbitrary value: only a dict has the attribute. *)
Definition py_get (v : json) (k : string) : result json :=
  match v with
  | JDict d => Ok (dict_get d k)
  | _ => Raise AttributeError
  end.

(** * The State Projection *)

(** [KuhulState]: the ordered components and the current theme.  The class
    lives in [state.py]; its fields are the ones [cli.py] touches. *)
Record KuhulState : Type := mkState {
  components : list json;
  theme : json
}.

(** Modelled from the spec: [KuhulState()], the empty state of section 3 of
    the specification (no components, the theme at its fixed default).  The
    default is a constant of [state.py] and is taken as a parameter. *)
Definition KuhulState_new (default_theme : string) : KuhulState :=
  mkState [] (JStr default_theme).

(** * Replay (cli.py, lines 199-212) *)

(** One iteration of the loop [for e in events]. *)
Definition replay_step (st : KuhulState) (e : dict) : result KuhulState :=
  if negb (py_eq_str (dict_get e "topic") "state.changed") then Ok st
  else
    let data := py_or (dict_get_default e "data" (JDict [])) (JDict []) in
    let* kind := py_get data "kind" in
    if py_eq_str kind "component.created" then
      let* comp := py_get data "component" in
      if isinstance_dict comp
      then Ok (mkState (components st ++ [comp]) (theme st))
      else Ok st
    else if py_eq_str kind "theme.changed" then
      let* to := py_get data "to" in
      if py_in_strs to ["dark"; "light"]
      then Ok (mkState (components st) to)
      else Ok st
    else Ok st.

(** The loop, from a given state. *)
Fixpoint replay_from (st : KuhulState) (events : list dict) : result KuhulState :=
  match events with
  | [] => Ok st
  | e :: rest =>
      let* st' := replay_step st e in
      replay_from st' rest
  end.

(** [st = KuhulState()] followed by the loop. *)
Definition replay (default_theme : string) (events : list dict) : result KuhulState :=
  replay_from (KuhulState_new default_theme) events.


(** An Event of section 3 of the specification, as a log record. *)
Definition event_record (id : string) (ts_ms : Z) (caused_by : json)
    (topic : string) (data : json) : dict :=
  [("id", JStr id); ("ts_ms", JInt ts_ms); ("caused_by", caused_by);
   ("topic", JStr topic); ("data", data)].

(** The payloads of the two state-changing events (section 4.5). *)
Definition component_created (component : json) : json :=
  JDict [("kind", JStr "component.created"); ("component", component)].
Definition theme_changed (to : json) : json :=
  JDict [("kind", JStr "theme.changed"); ("to", to)].

(** The test of line 201, [e.get("topic") == "state.changed"]. *)
Definition is_state_changed (e : dict) : bool :=
  py_eq_str (dict_get e "topic") "state.changed".

(** * Strings and paths *)

(** [s.startswith("/")] and [s.endswith("/")] *)
Definition starts_with_sep (s : string) : bool :=
  match s with
  | String c _ => Ascii.eqb c "/"%char
  | EmptyString => false
  end.

Fixpoint ends_with_sep (s : string) : bool :=
  match s with
  | EmptyString => false
  | String c EmptyString => Ascii.eqb c "/"%char
  | String _ rest => ends_with_sep rest
  end.

(** [s.rstrip("/")] *)
Fixpoint rstrip_sep (s : string) : string :=
  match s with
  | EmptyString => EmptyString
  | String c rest =>
      let rest' := rstrip_sep rest in
      if Ascii.eqb c "/"%char && String.eqb rest' "" then EmptyString else String c rest'
  end.

(** [os.path.join(a, b)] (posixpath) *)
Definition os_path_join (a b : string) : string :=
  if starts_with_sep b then b
  else if String.eqb a "" || ends_with_sep a then a +:+ b
  else a +:+ "/" +:+ b.

Fixpoint basename_from (acc p : string) : string :=
  match p with
  | EmptyString => acc
  | String c rest =>
      if Ascii.eqb c "/"%char then basename_from "" rest
      else basename_from (acc +:+ String c "") rest
  end.

(** [os.path.basename(p)]: what follows the last separator. *)
Definition os_path_basename (p : string) : string := basename_from "" p.

(** Truth value of an [Optional[str]]. *)
Definition truthy_opt (o : option string) : bool :=
  match o with
  | Some s => negb (String.eqb s "")
  | None => false
  end.

(** [o or d] for an [Optional[str]] and a string. *)
Definition opt_or (o : option string) (d : string) : string :=
  match o with
  | Some s => if String.eqb s "" then d else s
  | None => d
  end.

(** An [Optional[str]] as a JSON value. *)
Definition json_of_opt (o : option string) : json :=
  match o with
  | Some s => JStr s
  | None => JNull
  end.

(** * Collaborators whose source is not part of [cli.py] or [providers.py] *)

(** The constants and helpers of the modules [state], [ids], [svg_renderer]
    and [engine] that the code below calls without fixing them. *)
Class Deps : Type := {
  (** [state.py]: the theme of a fresh [KuhulState()] *)
  default_theme : string;
  (** [ids.py]: the generator object and its [next_id(kind, ts_ms)] *)
  IdGen : Type;
  IdGen_new : IdGen;
  IdGen_next_id : IdGen -> string -> Z -> string * IdGen;
  (** [svg_renderer.py]: [render_svg(state_dict)] *)
  render_svg : json -> string;
  (** [engine.py]: the namespace of component ids and the topic of the
      informational export event *)
  component_id_kind : string;
  export_topic : string
}.

(** * The world of one run *)

(** An HTTP request as [_post_json] builds it, and what comes back. *)
Record request : Type := mkRequest {
  req_url : string;
  req_payload : json;
  req_headers : list (string * string)
}.

Inductive response : Type :=
| RespHTTPError (code : Z) (detail : string)   (* urllib.error.HTTPError *)
| RespURLError (reason : string)               (* urllib.error.URLError *)
| RespBody (parsed : option json).             (* 200; [None]: json.loads fails *)

(** The JSONL files by path. *)
Abbreviation fs := (gmap string (list (option dict))).

(** The files other than [p] are the same in [f] and [g]. *)
Definition agree_off (p : string) (f g : fs) : Prop :=
  forall q, q <> p -> g !! q = f !! q.

(** What [print] writes. *)
Inductive out_line : Type :=
| OutEvent (topic id caused_by : json)   (* the printer subscriber *)
| OutText (s : string)
| OutValue (v : json).

(** The files, the environment and the objects of the process.  A JSONL file
    is the list of its lines: [Some r] for a line holding the record [r],
    [None] for a malformed line.  Files written by [write_text] are kept in
    [texts]. *)
Record Sys `{Deps} : Type := mkSys {
  files : fs;
  texts : gmap string string;
  environ : gmap string string;
  server : request -> response;
  clock : nat -> Z;             (* successive values of int(time.time() * 1000) *)
  ticks : nat;
  sent : list request;
  stdout : list out_line;
  stderr : list string;
  idgen : IdGen;                (* the IdGen() object *)
  state : KuhulState            (* engine.state *)
}.

Section Program.
Context `{D : Deps}.

Definition set_files (f : gmap string (list (option dict))) (s : Sys) : Sys :=
  mkSys _ f (texts s) (environ s) (server s) (clock s) (ticks s) (sent s)
        (stdout s) (stderr s) (idgen s) (state s).
Definition set_texts (t : gmap string string) (s : Sys) : Sys :=
  mkSys _ (files s) t (environ s) (server s) (clock s) (ticks s) (sent s)
        (stdout s) (stderr s) (idgen s) (state s).
Definition set_ticks (n : nat) (s : Sys) : Sys :=
  mkSys _ (files s) (texts s) (environ s) (server s) (clock s) n (sent s)
        (stdout s) (stderr s) (idgen s) (state s).
Definition set_sent (l : list request) (s : Sys) : Sys :=
  mkSys _ (files s) (texts s) (environ s) (server s) (clock s) (ticks s) l
        (stdout s) (stderr s) (idgen s) (state s).
Definition set_stdout (l : list out_line) (s : Sys) : Sys :=
  mkSys _ (files s) (texts s) (environ s) (server s) (clock s) (ticks s) (sent s)
        l (stderr s) (idgen s) (state s).
Definition set_stderr (l : list string) (s : Sys) : Sys :=
  mkSys _ (files s) (texts s) (environ s) (server s) (clock s) (ticks s) (sent s)
        (stdout s) l (idgen s) (state s).
Definition set_idgen (g : IdGen) (s : Sys) : Sys :=
  mkSys _ (files s) (texts s) (environ s) (server s) (clock s) (ticks s) (sent s)
        (stdout s) (stderr s) g (state s).
Definition set_state (st : KuhulState) (s : Sys) : Sys :=
  mkSys _ (files s) (texts s) (environ s) (server s) (clock s) (ticks s) (sent s)
        (stdout s) (stderr s) (idgen s) st.

(** ** Effectful code: a computation runs in a [Sys] and either returns or
    raises; what it did before raising stays done. *)
Definition M (A : Type) : Type := Sys -> result A * Sys.

Definition ret {A} (a : A) : M A := fun s => (Ok a, s).
Definition raise {A} (e : exn) : M A := fun s => (Raise e, s).
Definition lift {A} (r : result A) : M A := fun s => (r, s).
Definition bind {A B} (m : M A) (k : A -> M B) : M B :=
  fun s =>
    match m s with
    | (Ok a, s') => k a s'
    | (Raise e, s') => (Raise e, s')
    end.

Notation "'let!' x ':=' c 'in' k" := (bind c (fun x => k))
  (at level 10, x name, c at level 100, k at level 200) : py_scope.

(** [print(...)] and [print(..., file=sys.stderr)] *)
Definition print (l : out_line) : M unit :=
  fun s => (Ok tt, set_stdout (stdout s ++ [l]) s).
Definition print_err (l : string) : M unit :=
  fun s => (Ok tt, set_stderr (stderr s ++ [l]) s).

(** [now_ms()] (cli.py, line 19): the next reading of the clock. *)
Definition now_ms : M Z :=
  fun s => (Ok (clock s (ticks s)), set_ticks (S (ticks s)) s).

(** [write_text(path, text)] (cli.py, line 48) *)
Definition write_text (path text : string) : M unit :=
  fun s => (Ok tt, set_texts (<[path := text]> (texts s)) s).

(** [os.getenv(name)] *)
Definition os_getenv (name : string) : M (option string) :=
  fun s => (Ok (environ s !! name), s).

(** [idgen.next_id(kind, ts_ms)] on the generator object of the process. *)
Definition next_id (kind : string) (ts_ms : Z) : M string :=
  fun s =>
    let r := IdGen_next_id (idgen s) kind ts_ms in
    (Ok (fst r), set_idgen (snd r) s).

(** Reading and replacing [engine.state]. *)
Definition get_state : M KuhulState := fun s => (Ok (state s), s).
Definition put_state (st : KuhulState) : M unit := fun s => (Ok tt, set_state st s).

(** ** The append-only log ([session_log.py]) *)

(** The lines of the file at [path]; a file that does not exist has none. *)
Definition lines (s : Sys) (path : string) : list (option dict) :=
  default [] (files s !! path).

(** Modelled from the spec: [SessionLog(path).append(record)] of section 4.2
    writes the record as one more line after the lines already there. *)
Definition SessionLog_append (path : string) (record : dict) : M unit :=
  fun s => (Ok tt, set_files (<[path := lines s path ++ [Some record]]> (files s)) s).

Fixpoint parse_lines (ls : list (option dict)) : result (list dict) :=
  match ls with
  | [] => Ok []
  | Some r :: rest => let* rs := parse_lines rest in Ok (r :: rs)
  | None :: _ => Raise CorruptLog
  end.

(** Modelled from the spec: [SessionLog(path).read_all()] of section 4.2
    returns every record in write order, nothing for a file that does not
    exist, and aborts with a corrupt-log error on a malformed line. *)
Definition SessionLog_read_all (path : string) : M (list dict) :=
  fun s => (parse_lines (lines s path), s).

(** [load_events(log)] (cli.py, line 53) *)
Definition load_events (path : string) : M (list dict) := SessionLog_read_all path.

(** ** The event bus ([bus.py]) *)

(** Modelled from the spec: the bus of section 4.3, a backing log and the
    subscribed handlers in subscription order. *)
Record EventBus : Type := mkBus {
  bus_log : string;                       (* path of the backing SessionLog *)
  subscribers : list (dict -> M unit)
}.

(** Modelled from the spec: the subscribers of section 4.3 are called in
    subscription order; one that raises does not stop the others. *)
Fixpoint notify (hs : list (dict -> M unit)) (e : dict) : M unit :=
  match hs with
  | [] => ret tt
  | h :: rest => fun s => notify rest e (snd (h e s))
  end.

(** Modelled from the spec: [bus.publish(event)] of section 4.3 persists the
    event to the log first, then notifies the subscribers. *)
Definition EventBus_publish (bus : EventBus) (e : dict) : M unit :=
  let! _ := SessionLog_append (bus_log bus) e in
  notify (subscribers bus) e.

(** The subscriber of cli.py, lines 124-125. *)
Definition printer (e : dict) : M unit :=
  print (OutEvent (dict_get e "topic") (dict_get e "id") (dict_get e "caused_by")).

(** ** The command engine ([engine.py]) *)

Definition COMPONENT_TYPES : list string := ["button"; "card"; "chat-bubble"].
Definition THEMES : list string := ["dark"; "light"].

(** Modelled from the spec: [state.to_dict()] of section 4.4, the serialized
    State [{components, theme}] of section 6. *)
Definition KuhulState_to_dict (st : KuhulState) : json :=
  JDict [("components", JList (components st)); ("theme", theme st)].

(** Modelled from the spec: [engine.emit_event(ts_ms, caused_by, topic, data)]
    of section 4.5 builds an Event of section 3 with a fresh id in the
    namespace "evt" and hands it to the bus. *)
Definition Engine_emit_event (bus : EventBus) (ts_ms : Z) (caused_by : json)
    (topic : string) (data : json) : M dict :=
  let! id := next_id "evt" ts_ms in
  let e := event_record id ts_ms caused_by topic data in
  let! _ := EventBus_publish bus e in
  ret e.

(** Modelled from the spec: [engine.state_snapshot(caused_by)] of section 4.5
    emits a "state.snapshot" event whose data is the serialized State. *)
Definition Engine_state_snapshot (bus : EventBus) (caused_by : json) : M dict :=
  let! ts := now_ms in
  let! st := get_state in
  Engine_emit_event bus ts caused_by "state.snapshot" (KuhulState_to_dict st).

(** Modelled from the spec: [engine.apply_command(cmd)], the table of section
    4.5 keyed by [op].  The operation names are the ones [cli.py] issues; the
    component types and themes are the ones its parser accepts.  Arguments
    are checked before anything is changed; an unknown [op] is rejected.  An
    emitted event is caused by the command's id and stamped with the clock at
    emission; the id of a new component is drawn from the generator. *)
Definition Engine_apply_command (bus : EventBus) (cmd : dict) : M unit :=
  let op := dict_get cmd "op" in
  let cause := dict_get cmd "id" in
  if py_eq_str op "ui.create" then
    match dict_get cmd "args" with
    | JDict a =>
        let type := dict_get a "component" in
        if py_in_strs type COMPONENT_TYPES then
          let! ts := now_ms in
          let! cid := next_id component_id_kind ts in
          let comp := JDict [("id", JStr cid); ("type", type);
                             ("props", dict_get a "props")] in
          let! st := get_state in
          let! _ := put_state (mkState (components st ++ [comp]) (theme st)) in
          let! _ := Engine_emit_event bus ts cause "state.changed"
                      (component_created comp) in
          ret tt
        else raise InvalidArgument
    | _ => raise InvalidArgument
    end
  else if py_eq_str op "ui.theme.apply" then
    match dict_get cmd "args" with
    | JDict a =>
        let name := dict_get a "name" in
        if py_in_strs name THEMES then
          let! ts := now_ms in
          let! st := get_state in
          let! _ := put_state (mkState (components st) name) in
          let! _ := Engine_emit_event bus ts cause "state.changed"
                      (theme_changed name) in
          ret tt
        else raise InvalidArgument
    | _ => raise InvalidArgument
    end
  else if py_eq_str op "svg.export" then
    match dict_get cmd "args" with
    | JDict a =>
        let! ts := now_ms in
        let! _ := Engine_emit_event bus ts cause export_topic
                    (JDict [("hint", dict_get a "hint")]) in
        ret tt
    | _ => raise InvalidArgument
    end
  else if py_eq_str op "ai.chat" then ret tt
  else raise UnrecognizedOperation.

(** * The provider client (providers.py) *)

Record ProviderConfig : Type := mkProviderConfig {
  name : string;
  base_url : string;
  api_key_env : option string;
  kind : string
}.

(** The table of lines 23-60, in source order. *)
Definition PROVIDERS_items : list (string * ProviderConfig) :=
  [ ("openai", mkProviderConfig "openai" "https://api.openai.com/v1"
                 (Some "OPENAI_API_KEY") "openai");
    ("mistral", mkProviderConfig "mistral" "https://api.mistral.ai/v1"
                 (Some "MISTRAL_API_KEY") "openai");
    ("deepseek", mkProviderConfig "deepseek" "https://api.deepseek.com/v1"
                 (Some "DEEPSEEK_API_KEY") "openai");
    ("codestral", mkProviderConfig "codestral" "https://codestral.mistral.ai/v1"
                 (Some "CODESTRAL_API_KEY") "openai");
    ("claude", mkProviderConfig "claude" "https://api.anthropic.com/v1"
                 (Some "ANTHROPIC_API_KEY") "anthropic");
    ("inference", mkProviderConfig "inference" "http://localhost:11434/v1"
                 (Some "INFERENCE_API_KEY") "openai") ].

Definition PROVIDERS : gmap string ProviderConfig := list_to_map PROVIDERS_items.

(** [_post_json(url, payload, headers)] (lines 185-198): one request to the
    server; HTTP errors, connection errors and a body that is not JSON come
    back as [ProviderError]. *)
Definition _post_json (url : string) (payload : json)
    (headers : list (string * string)) : M json :=
  fun s =>
    let request := mkRequest url payload headers in
    let s' := set_sent (sent s ++ [request]) s in
    match server s request with
    | RespBody (Some data) => (Ok data, s')
    | RespHTTPError code detail =>
        (Raise (ProviderError ("HTTP " +:+ pretty code +:+ ": " +:+ detail)), s')
    | RespURLError reason =>
        (Raise (ProviderError ("Connection error: " +:+ reason)), s')
    | RespBody None => (Raise (ProviderError "Invalid JSON response"), s')
    end.

(** [v[0]] *)
Definition py_item0 (v : json) : result json :=
  match v with
  | JList (x :: _) => Ok x
  | JList [] => Raise IndexError
  | JStr (String c _) => Ok (JStr (String c EmptyString))
  | JStr EmptyString => Raise IndexError
  | JDict _ => Raise KeyError            (* the keys of a JSON object are strings *)
  | JNull | JBool _ | JInt _ | JFloat _ => Raise TypeError
  end.

(** Lines 134-140: the content of an OpenAI-style response. *)
Definition openai_content (data : json) : result json :=
  match data with
  | JDict d =>
      let choices := py_or (dict_get d "choices") (JList []) in
      if truthy choices then
        let* first := py_item0 choices in
        let* message := py_get first "message" in
        let message_obj := py_or message (JDict []) in
        let* content := py_get message_obj "content" in
        if truthy content then Ok content
        else
          let* text := py_get first "text" in
          Ok (py_or text (JStr ""))
      else Ok (JStr "")
  | _ => Ok (JStr "")
  end.

(** Lines 174-179: the content of an Anthropic-style response. *)
Definition anthropic_content (data : json) : result json :=
  match data with
  | JDict d =>
      let parts := py_or (dict_get d "content") (JList []) in
      if truthy parts then
        let* first := py_item0 parts in
        let* text := py_get first "text" in
        Ok (py_or text (JStr ""))
      else Ok (JStr "")
  | _ => Ok (JStr "")
  end.

(** [_request_openai_compatible] (lines 107-143) *)
Definition _request_openai_compatible (base_url : string) (api_key : option string)
    (model message : string) (system : option string) (temperature : spec_float)
    (max_tokens : Z) : M (json * dict) :=
  let url := base_url +:+ "/chat/completions" in
  let messages :=
    (if truthy_opt system
     then [JDict [("role", JStr "system"); ("content", json_of_opt system)]]
     else [])
    ++ [JDict [("role", JStr "user"); ("content", JStr message)]] in
  let payload := JDict [("model", JStr model); ("messages", JList messages);
                        ("temperature", JFloat temperature);
                        ("max_tokens", JInt max_tokens)] in
  let headers :=
    [("Content-Type", "application/json")]
    ++ (if truthy_opt api_key
        then [("Authorization", "Bearer " +:+ default "" api_key)]
        else []) in
  let! data := _post_json url payload headers in
  let! content := lift (openai_content data) in
  if negb (truthy content) then raise (ProviderError "Empty response from provider")
  else ret (content, [("request_url", JStr url)]).

(** [_request_anthropic] (lines 146-182) *)
Definition _request_anthropic (base_url : string) (api_key : option string)
    (model message : string) (system : option string) (temperature : spec_float)
    (max_tokens : Z) : M (json * dict) :=
  let url := base_url +:+ "/messages" in
  let payload :=
    JDict ([("model", JStr model); ("max_tokens", JInt max_tokens);
            ("temperature", JFloat temperature);
            ("messages", JList [JDict [("role", JStr "user");
                                       ("content", JStr message)]])]
           ++ (if truthy_opt system then [("system", json_of_opt system)] else [])) in
  let headers :=
    [("Content-Type", "application/json"); ("anthropic-version", "2023-06-01")]
    ++ (if truthy_opt api_key then [("x-api-key", default "" api_key)] else []) in
  let! data := _post_json url payload headers in
  let! content := lift (anthropic_content data) in
  if negb (truthy content) then raise (ProviderError "Empty response from provider")
  else ret (content, [("request_url", JStr url)]).

(** The message of line 82. *)
Definition missing_key_message (env provider : string) : string :=
  "Missing API key. Set " +:+ env +:+ " or pass --api-key for " +:+ provider +:+ ".".

(** [request_chat] (lines 63-104) *)
Definition request_chat (provider model message : string) (system : option string)
    (temperature : spec_float) (max_tokens : Z) (base_url_arg api_key : option string)
    : M (json * dict) :=
  match PROVIDERS !! provider with
  | None => raise (ProviderError ("Unsupported provider: " +:+ provider))
  | Some config =>
      let resolved_base := rstrip_sep (opt_or base_url_arg (base_url config)) in
      let! key :=
        (if truthy_opt api_key then ret api_key
         else if truthy_opt (api_key_env config)
              then os_getenv (opt_or (api_key_env config) "")
              else ret None) in
      if truthy_opt (api_key_env config) && negb (truthy_opt key) then
        raise (ProviderError
                 (missing_key_message (default "" (api_key_env config)) provider))
      else if String.eqb (kind config) "anthropic" then
        _request_anthropic resolved_base key model message system temperature max_tokens
      else
        _request_openai_compatible resolved_base key model message system
          temperature max_tokens
  end.

(** * The command line program (cli.py) *)

Definition V : string := "1.0.0".

(** [d[k]] on a dict *)
Fixpoint dict_item (d : dict) (k : string) : result json :=
  match d with
  | [] => Raise KeyError
  | (k', v) :: rest => if String.eqb k' k then Ok v else dict_item rest k
  end.

(** [make_cmd] (lines 23-41) *)
Definition make_cmd (session op : string) (args : dict) (source_kind who : string)
    : M dict :=
  let! ts := now_ms in
  let! id := next_id "cmd" ts in
  ret [("@type", JStr "kuhul.command");
       ("@v", JStr V);
       ("id", JStr id);
       ("ts_ms", JInt ts);
       ("source", JDict [("kind", JStr source_kind); ("who", JStr who);
                         ("session", JStr session)]);
       ("op", JStr op);
       ("args", JDict args)].

(** What [argparse] hands to [main] (lines 58-113). *)
Inductive subcommand : Type :=
| CmdCreate (component : string) (text : option string)
| CmdTheme (theme_name : string)
| CmdExportSvg (file : option string)
| CmdReplay (file svg : option string)
| CmdChat (provider model message : string) (system : option string)
          (temperature : spec_float) (max_tokens : Z)
          (base_url_arg api_key : option string).

Record Args : Type := mkArgs {
  session : string;
  out : string;
  events : option string;
  quiet : bool;
  cmd : subcommand
}.

(** Line 116, and the paths of lines 145, 153 and 190-191. *)
Definition event_log_path (args : Args) : string :=
  opt_or (events args) (os_path_join (out args) (session args +:+ ".events.jsonl")).
Definition cmd_log_path (args : Args) : string :=
  os_path_join (out args) (session args +:+ ".commands.jsonl").
Definition svg_path (args : Args) : string :=
  os_path_join (out args) (session args +:+ ".svg").
Definition replay_log_path (args : Args) (file : option string) : string :=
  opt_or file (os_path_join (out args) (session args +:+ ".events.jsonl")).
Definition replay_svg_path (args : Args) (svg : option string) : string :=
  opt_or svg (os_path_join (out args) (session args +:+ ".replay.svg")).

(** Lines 117-129: the bus over the event log, with the printer unless
    [--quiet]; a fresh generator and an engine over a fresh state. *)
Definition main_bus (args : Args) : EventBus :=
  mkBus (event_log_path args) (if quiet args then [] else [printer]).

Definition process_start : M unit :=
  fun s => (Ok tt, set_idgen IdGen_new (set_state (KuhulState_new default_theme) s)).

(** [render_svg(engine.state.to_dict())] *)
Definition render_engine_state : M string :=
  let! st := get_state in
  ret (render_svg (KuhulState_to_dict st)).

(** Lines 144-158, shared by the three subcommands that go through the
    engine: log the command, apply it, snapshot, write the SVG. *)
Definition run_engine_command (args : Args) (cmd : dict) (svg_file : string) : M Z :=
  let! _ := SessionLog_append (cmd_log_path args) cmd in
  let! _ := Engine_apply_command (main_bus args) cmd in
  let! cause := lift (dict_item cmd "id") in
  let! _ := Engine_state_snapshot (main_bus args) cause in
  let! svg := render_engine_state in
  let! _ := write_text svg_file svg in
  let! _ := (if quiet args then ret tt
             else print (OutText ("SVG written: " +:+ svg_file))) in
  ret 0.

(** Lines 190-212 of the replay subcommand: the State it reconstructs. *)
Definition replay_state (args : Args) (file : option string) : M KuhulState :=
  let! events := load_events (replay_log_path args file) in
  lift (replay default_theme events).

(** The arguments of the "ai.chat" command (lines 225-232). *)
Definition chat_cmd_args (provider model message : string) (system : option string)
    (temperature : spec_float) (max_tokens : Z) : dict :=
  [("provider", JStr provider); ("model", JStr model); ("message", JStr message);
   ("system", json_of_opt system); ("temperature", JFloat temperature);
   ("max_tokens", JInt max_tokens)].

(** [try: ... except ProviderError as exc:] around a call. *)
Definition try_provider {A} (m : M A) : M (A + string) :=
  fun s =>
    match m s with
    | (Ok a, s') => (Ok (inl a), s')
    | (Raise (ProviderError msg), s') => (Ok (inr msg), s')
    | (Raise e, s') => (Raise e, s')
    end.

(** [main] (lines 57-271), from the parsed arguments; the result is the exit
    status.  The parser requires one of the five subcommands. *)
Definition main (args : Args) : M Z :=
  let! _ := process_start in
  match cmd args with
  | CmdCreate component text =>
      let props :=
        match text with
        | Some t => [(if negb (String.eqb component "card") then "text" else "label",
                      JStr t)]
        | None => []
        end in
      let! cmd := make_cmd (session args) "ui.create"
                    [("component", JStr component); ("props", JDict props)]
                    "cli" "local" in
      run_engine_command args cmd (svg_path args)
  | CmdTheme theme_name =>
      let! cmd := make_cmd (session args) "ui.theme.apply"
                    [("name", JStr theme_name)] "cli" "local" in
      run_engine_command args cmd (svg_path args)
  | CmdExportSvg file =>
      let out_svg := opt_or file (svg_path args) in
      let! cmd := make_cmd (session args) "svg.export"
                    [("hint", JStr (os_path_basename out_svg))] "cli" "local" in
      run_engine_command args cmd out_svg
  | CmdReplay file svg =>
      let! st := replay_state args file in
      let! _ := write_text (replay_svg_path args svg)
                  (render_svg (KuhulState_to_dict st)) in
      let! _ := (if quiet args then ret tt
                 else print (OutText ("Replayed SVG written: "
                                      +:+ replay_svg_path args svg))) in
      ret 0
  | CmdChat provider model message system temperature max_tokens base_url_arg api_key =>
      let! cmd := make_cmd (session args) "ai.chat"
                    (chat_cmd_args provider model message system temperature max_tokens)
                    "cli" "local" in
      let! _ := SessionLog_append (cmd_log_path args) cmd in
      let! answer := try_provider
                       (request_chat provider model message system temperature
                          max_tokens base_url_arg api_key) in
      match answer with
      | inr error =>
          let! ts := now_ms in
          let! cause := lift (dict_item cmd "id") in
          let! _ := Engine_emit_event (main_bus args) ts cause "ai.chat.failed"
                      (JDict [("provider", JStr provider); ("error", JStr error)]) in
          let! _ := print_err ("Error: " +:+ error) in
          ret 1
      | inl (content, meta) =>
          let! ts := now_ms in
          let! cause := lift (dict_item cmd "id") in
          let! _ := Engine_emit_event (main_bus args) ts cause "ai.chat.completed"
                      (JDict [("provider", JStr provider); ("model", JStr model);
                              ("response", content); ("meta", JDict meta)]) in
          let! _ := print (OutValue content) in
          ret 0
      end
  end.

(** ** The rows of the table of section 4.5, as relations between the world
    before and after a command applied on the bus of [main] *)




(** ** What a computation does to the files *)

(** [m] takes the files [f] of any world to files related to [f] by [R]. *)
Definition respects (R : relation fs) {A} (m : M A) : Prop :=
  forall s, R (files s) (files (snd (m s))).


End Program.


(** * The replay contract in the words of the specification *)

(** What an event asks of the State (section 4.6; the tagged union of the
    design notes, section 9). *)
Inductive change : Type :=
| ComponentCreated (component : json)
| ThemeChanged (to : json)
| Ignored.

Definition event_change (e : dict) : change :=
  if is_state_changed e then
    match dict_get e "data" with
    | JDict data =>
        if py_eq_str (dict_get data "kind") "component.created"
        then ComponentCreated (dict_get data "component")
        else if py_eq_str (dict_get data "kind") "theme.changed"
        then ThemeChanged (dict_get data "to")
        else Ignored
    | _ => Ignored
    end
  else Ignored.

(** Section 4.6 word for word: a created component is appended verbatim; a
    theme is set only when it is a recognized one. *)
Definition spec_apply (st : KuhulState) (c : change) : KuhulState :=
  match c with
  | ComponentCreated comp => mkState (components st ++ [comp]) (theme st)
  | ThemeChanged to =>
      if py_in_strs to THEMES then mkState (components st) to else st
  | Ignored => st
  end.

Definition replay_spec (default_theme : string) (events : list dict) : KuhulState :=
  fold_left (fun st e => spec_apply st (event_change e)) events
            (KuhulState_new default_theme).

(** The same contract with one amendment: a created component is appended
    only when it is a JSON object. *)
Definition amended_apply (st : KuhulState) (c : change) : KuhulState :=
  match c with
  | ComponentCreated (JDict comp) => mkState (components st ++ [JDict comp]) (theme st)
  | ComponentCreated _ => st
  | ThemeChanged to =>
      if py_in_strs to THEMES then mkState (components st) to else st
  | Ignored => st
  end.

Definition replay_amended (default_theme : string) (events : list dict) : KuhulState :=
  fold_left (fun st e => amended_apply st (event_change e)) events
            (KuhulState_new default_theme).

(** The [data] of an event is absent, a JSON object, or a value Python takes
    for false ([None], [0], the empty string or list). *)
Definition data_is_mapping (e : dict) : bool :=
  match dict_get_default e "data" (JDict []) with
  | JDict _ => true
  | v => negb (truthy v)
  end.

(** * Sample inputs *)

Definition sample_button : json :=
  JDict [("id", JStr "cmp_1"); ("type", JStr "button");
         ("props", JDict [("text", JStr "OK")])].
Definition sample_card : json :=
  JDict [("id", JStr "cmp_2"); ("type", JStr "card"); ("props", JDict [])].

Definition sample_events : list dict :=
  [ event_record "evt_1" 1000 (JStr "cmd_1") "state.changed" (component_created sample_button);
    event_record "evt_2" 1000 (JStr "cmd_1") "state.snapshot" (JDict []);
    event_record "evt_3" 2000 (JStr "cmd_2") "state.changed" (theme_changed (JStr "dark"));
    event_record "evt_4" 3000 (JStr "cmd_3") "state.changed" (component_created sample_card) ].

(** A created component that is a string, not an object. *)
Definition event_string_component : dict :=
  event_record "evt_1" 1000 (JStr "cmd_1") "state.changed" (component_created (JStr "button")).

(** A state change whose [data] is a string. *)
Definition event_string_data : dict :=
  [("topic", JStr "state.changed"); ("data", JStr "x")].

(** A concrete choice for the collaborators: ids made of the namespace, the
    timestamp and a counter; a renderer that ignores the state. *)
Definition sample_deps : Deps :=
  {| default_theme := "light";
     IdGen := nat;
     IdGen_new := 0%nat;
     IdGen_next_id := fun g kind ts =>
       (kind +:+ "_" +:+ pretty ts +:+ "_" +:+ pretty g, S g);
     render_svg := fun _ => "<svg/>";
     component_id_kind := "cmp";
     export_topic := "svg.export.requested" |}.

(** A world with no files, the environment [env], the server [srv] and a
    clock that starts at 1000 ms. *)
Definition sample_sys (env : gmap string string) (srv : request -> response)
    : @Sys sample_deps :=
  @mkSys sample_deps ∅ ∅ env srv (fun k => 1000 + Z.of_nat k) 0 [] [] [] 0%nat
         (KuhulState_new "light").

Definition half : spec_float := S754_finite false 1 (-1).

(** A server whose first choice is the number 5, and one whose message
    content is the number 5. *)
Definition server_choice_number (_ : request) : response :=
  RespBody (Some (JDict [("choices", JList [JInt 5])])).
Definition server_content_number (_ : request) : response :=
  RespBody (Some (JDict [("choices",
     JList [JDict [("message", JDict [("content", JInt 5)])]])])).
(** A server that answers "hello". *)
Definition server_hello (_ : request) : response :=
  RespBody (Some (JDict [("choices",
     JList [JDict [("message", JDict [("content", JStr "hello")])]])])).

Definition sample_chat_args (api_key : option string) : Args :=
  mkArgs "sess_local" "output" None true
         (CmdChat "openai" "gpt" "hi" None half 512 None api_key).

Definition sample_replay_args : Args :=
  mkArgs "sess_local" "output" None true (CmdReplay None None).

(** The sample world with the records [evs] in the event log of the sample
    session. *)
Definition sample_sys_with_events (evs : list dict) : @Sys sample_deps :=
  set_files {[ "output/sess_local.events.jsonl" := map Some evs ]}
            (sample_sys ∅ server_hello).

(** The sample events without the snapshot. *)
Definition sample_state_changes : list dict :=
  [ event_record "evt_1" 1000 (JStr "cmd_1") "state.changed" (component_created sample_button);
    event_record "evt_3" 2000 (JStr "cmd_2") "state.changed" (theme_changed (JStr "dark"));
    event_record "evt_4" 3000 (JStr "cmd_3") "state.changed" (component_created sample_card) ].


(** * What one event contributes to the replayed State *)

(** The component the loop appends for the event (lines 201-208), if any. *)
Definition appended_component (e : dict) : option json :=
  if is_state_changed e then
    match py_or (dict_get_default e "data" (JDict [])) (JDict []) with
    | JDict data =>
        if py_eq_str (dict_get data "kind") "component.created" then
          match dict_get data "component" with
          | JDict comp => Some (JDict comp)
          | _ => None
          end
        else None
    | _ => None
    end
  else None.

(** The theme the loop assigns for the event (lines 201-204 and 209-212), if
    any. *)
Definition assigned_theme (e : dict) : option json :=
  if is_state_changed e then
    match py_or (dict_get_default e "data" (JDict [])) (JDict []) with
    | JDict data =>
        if py_eq_str (dict_get data "kind") "component.created" then None
        else if py_eq_str (dict_get data "kind") "theme.changed" then
          if py_in_strs (dict_get data "to") ["dark"; "light"]
          then Some (dict_get data "to")
          else None
        else None
    | _ => None
    end
  else None.

(** A "state.changed" event whose [data] is neither a mapping nor a value
    Python takes for false: line 204 calls [.get] on it. *)
Definition data_breaks (e : dict) : bool :=
  is_state_changed e && negb (data_is_mapping e).

(** * The exchange with the provider, spelled out *)

(** The request of [_request_openai_compatible] (lines 117-131) for a key
    that is not empty. *)
Definition openai_request (base key model message : string) (system : option string)
    (temperature : spec_float) (max_tokens : Z) : request :=
  mkRequest (base +:+ "/chat/completions")
    (JDict [("model", JStr model);
            ("messages",
             JList ((if truthy_opt system
                     then [JDict [("role", JStr "system");
                                  ("content", json_of_opt system)]]
                     else [])
                    ++ [JDict [("role", JStr "user"); ("content", JStr message)]]));
            ("temperature", JFloat temperature);
            ("max_tokens", JInt max_tokens)])
    [("Content-Type", "application/json"); ("Authorization", "Bearer " +:+ key)].

(** The request of [_request_anthropic] (lines 156-171) for a key that is not
    empty. *)
Definition anthropic_request (base key model message : string) (system : option string)
    (temperature : spec_float) (max_tokens : Z) : request :=
  mkRequest (base +:+ "/messages")
    (JDict ([("model", JStr model); ("max_tokens", JInt max_tokens);
             ("temperature", JFloat temperature);
             ("messages", JList [JDict [("role", JStr "user");
                                        ("content", JStr message)]])]
            ++ (if truthy_opt system then [("system", json_of_opt system)] else [])))
    [("Content-Type", "application/json"); ("anthropic-version", "2023-06-01");
     ("x-api-key", key)].

(** The request [request_chat] sends for an entry of the table, by its kind
    (lines 78 and 85-104). *)
Definition chat_request (config : ProviderConfig) (base_url_arg : option string)
    (key model message : string) (system : option string) (temperature : spec_float)
    (max_tokens : Z) : request :=
  let base := rstrip_sep (opt_or base_url_arg (base_url config)) in
  if String.eqb (kind config) "anthropic"
  then anthropic_request base key model message system temperature max_tokens
  else openai_request base key model message system temperature max_tokens.

(** How the content is read off the body, by the kind of the provider. *)
Definition content_of (config : ProviderConfig) (data : json) : result json :=
  if String.eqb (kind config) "anthropic" then anthropic_content data
  else openai_content data.

(** What comes back for the request [req]: the failures of [_post_json]
    (lines 192-198), then the reading of the content (lines 141-143 and
    180-182). *)
Definition answer (config : ProviderConfig) (req : request) (r : response)
    : result (json * dict) :=
  match r with
  | RespHTTPError code detail =>
      Raise (ProviderError ("HTTP " +:+ pretty code +:+ ": " +:+ detail))
  | RespURLError reason => Raise (ProviderError ("Connection error: " +:+ reason))
  | RespBody None => Raise (ProviderError "Invalid JSON response")
  | RespBody (Some data) =>
      match content_of config data with
      | Raise x => Raise x
      | Ok content =>
          if truthy content
          then Ok (content, [("request_url", JStr (req_url req))])
          else Raise (ProviderError "Empty response from provider")
      end
  end.

(** The key [request_chat] ends up with is [k]: it is the [api_key] argument,
    or, when that is absent or empty, the value of the provider's
    environment variable (line 79). *)
Definition uses_key `{Deps} (api_key : option string) (config : ProviderConfig)
    (s : Sys) (k : string) : Prop :=
  k <> ""
  /\ (api_key = Some k
      \/ (truthy_opt api_key = false
          /\ exists env, api_key_env config = Some env /\ environ s !! env = Some k)).

Definition server_down (_ : request) : response := RespURLError "refused".
Definition server_garbage (_ : request) : response := RespBody None.
Definition server_empty_object (_ : request) : response := RespBody (Some (JDict [])).

(** A server that answers in the completion style, with [text]. *)
Definition server_text (_ : request) : response :=
  RespBody (Some (JDict [("choices", JList [JDict [("text", JStr "hi there")]])])).

(** The entries of the table for "openai" and "claude". *)
Definition openai_config : ProviderConfig :=
  mkProviderConfig "openai" "https://api.openai.com/v1" (Some "OPENAI_API_KEY") "openai".

(** * What a run records in the commands log *)





(** * Worlds that differ in what was printed only *)

(** [s1] and [s2] agree on everything but the standard output. *)
Definition same_but_stdout `{Deps} (s1 s2 : Sys) : Prop :=
  set_stdout [] s1 = set_stdout [] s2.

(** From worlds that agree but for the standard output, [m1] and [m2] give
    the same result and worlds that still agree but for the standard
    output. *)
Definition print_blind `{Deps} {A} (m1 m2 : M A) : Prop :=
  forall s1 s2, same_but_stdout s1 s2 ->
    fst (m1 s1) = fst (m2 s2) /\ same_but_stdout (snd (m1 s1)) (snd (m2 s2)).

(** * Sanity checks on the string helpers *)

Example os_path_join_default :
  os_path_join "output" ("sess_local" +:+ ".events.jsonl")
  = "output/sess_local.events.jsonl".
Proof. reflexivity. Qed.

Example os_path_join_absolute : os_path_join "output" "/tmp/x.jsonl" = "/tmp/x.jsonl".
Proof. reflexivity. Qed.

Example os_path_join_trailing_sep : os_path_join "out/" "x.svg" = "out/x.svg".
Proof. reflexivity. Qed.

Example rstrip_sep_trailing : rstrip_sep "http://localhost:11434/v1//" = "http://localhost:11434/v1".
Proof. reflexivity. Qed.

Example os_path_basename_nested : os_path_basename "output/a/ui.svg" = "ui.svg".
Proof. reflexivity. Qed.

(** * Properties of the replay fold *)

Section ReplayFacts.

Lemma replay_from_app (st : KuhulState) (evs1 evs2 : list dict) :
  replay_from st (evs1 ++ evs2)
  = rbind (replay_from st evs1) (fun st' => replay_from st' evs2).
Proof.
  revert st. induction evs1 as [|e evs1 IH]; intros st; simpl; [reflexivity|].
  destruct (replay_step st e) as [st'|x]; simpl; [apply IH | reflexivity].
Qed.

Lemma replay_step_other_topic (st : KuhulState) (e : dict) :
  is_state_changed e = false -> replay_step st e = Ok st.
Proof.
  unfold replay_step, is_state_changed. intros ->. reflexivity.
Qed.

Lemma replay_from_filter (st : KuhulState) (evs : list dict) :
  replay_from st (List.filter is_state_changed evs) = replay_from st evs.
Proof.
  revert st. induction evs as [|e evs IH]; intros st; simpl; [reflexivity|].
  destruct (is_state_changed e) eqn:He; simpl.
  - destruct (replay_step st e); simpl; [apply IH | reflexivity].
  - rewrite (replay_step_other_topic st e He). simpl. apply IH.
Qed.

Lemma dict_get_default_cases (e : dict) (k : string) (dflt : json) :
  dict_get_default e k dflt = dict_get e k
  \/ (dict_get_default e k dflt = dflt /\ dict_get e k = JNull).
Proof.
  unfold dict_get. induction e as [|[k' v] e IH]; simpl.
  - right. split; reflexivity.
  - destruct (String.eqb k' k); [left; reflexivity | exact IH].
Qed.

(** What line 203 binds to [data] when the event's [data] is a mapping,
    absent, or false. *)
Lemma data_of_event (e : dict) :
  data_is_mapping e = true ->
  (exists d, dict_get e "data" = JDict d
             /\ py_or (dict_get_default e "data" (JDict [])) (JDict []) = JDict d)
  \/ ((forall d, dict_get e "data" <> JDict d)
      /\ py_or (dict_get_default e "data" (JDict [])) (JDict []) = JDict []).
Proof.
  unfold data_is_mapping.
  destruct (dict_get_default_cases e "data" (JDict [])) as [Heq | [Hd Hn]].
  - rewrite Heq. destruct (dict_get e "data") as [| b | n | f | s | l | d] eqn:Hv;
      intros Ht.
    all: try (right; split; [intros d' Hd'; discriminate Hd' |];
              unfold py_or; apply negb_true_iff in Ht; rewrite Ht; reflexivity).
    left. exists d. split; [reflexivity|]. destruct d; reflexivity.
  - rewrite Hd. intros _. right. split; [rewrite Hn; intros d' Hd'; discriminate Hd' |].
    reflexivity.
Qed.

(** On a state change whose [data] is a mapping (or absent, or false), and on
    every event of another topic, one turn of the loop does what the amended
    contract says. *)
Lemma replay_step_amended (st : KuhulState) (e : dict) :
  (is_state_changed e = true -> data_is_mapping e = true) ->
  replay_step st e = Ok (amended_apply st (event_change e)).
Proof.
  intros Hd. unfold replay_step, event_change. fold (is_state_changed e).
  destruct (is_state_changed e); simpl; [|reflexivity].
  destruct (data_of_event e (Hd eq_refl)) as [(d & Hget & ->) | [Hno ->]].
  - rewrite Hget. simpl.
    destruct (py_eq_str (dict_get d "kind") "component.created").
    { destruct (dict_get d "component"); reflexivity. }
    destruct (py_eq_str (dict_get d "kind") "theme.changed"); [|reflexivity].
    unfold amended_apply, py_in_strs, THEMES. simpl.
    destruct (py_eq_str (dict_get d "to") "dark" || (py_eq_str (dict_get d "to") "light" || false));
      reflexivity.
  - simpl. destruct (dict_get e "data") as [| b | n | f | s | l | d] eqn:Hv;
      try reflexivity.
    exfalso. exact (Hno d eq_refl).
Qed.

Lemma replay_from_amended (st : KuhulState) (evs : list dict) :
  Forall (fun e => is_state_changed e = true -> data_is_mapping e = true) evs ->
  replay_from st evs
  = Ok (fold_left (fun st e => amended_apply st (event_change e)) evs st).
Proof.
  intros H. revert st. induction H as [|e evs He _ IH]; intros st; simpl; [reflexivity|].
  rewrite (replay_step_amended st e He). simpl. apply IH.
Qed.

(** A created component that is not an object leaves the state as it is. *)
Lemma replay_step_non_object (st : KuhulState) (e data : dict) :
  is_state_changed e = true ->
  dict_get e "data" = JDict data ->
  py_eq_str (dict_get data "kind") "component.created" = true ->
  isinstance_dict (dict_get data "component") = false ->
  replay_step st e = Ok st.
Proof.
  intros Ht Hdata Hkind Hcomp. unfold replay_step. fold (is_state_changed e).
  rewrite Ht. simpl.
  assert (Hor : py_or (dict_get_default e "data" (JDict [])) (JDict []) = JDict data).
  { destruct (dict_get_default_cases e "data" (JDict [])) as [-> | [_ Hn]].
    - rewrite Hdata. destruct data; reflexivity.
    - rewrite Hn in Hdata. discriminate Hdata. }
  rewrite Hor. simpl. rewrite Hkind, Hcomp. reflexivity.
Qed.

End ReplayFacts.

(** * The claims about replay *)

(** C1, as the specification words it, fails: the event
    [event_string_component] creates a component that is the string "button";
    the specification appends it, the code leaves the State empty. *)
Lemma replay_appends_verbatim_counterexample :
  replay "light" [event_string_component]
  <> Ok (replay_spec "light" [event_string_component]).
Proof. vm_compute. intros H. discriminate H. Qed.

(** C1 (amended): over events whose state changes carry a mapping as [data]
    (or none), replay returns the State obtained from the empty State by
    going through the events in order, appending [data.component] for a
    "component.created" change when it is a JSON object, setting the theme
    to [data.to] for a "theme.changed" change when it is "dark" or "light",
    and leaving the State alone otherwise.  Scenario 3: a button created, the
    theme set to dark, a card created yield those two components in that
    order and the theme "dark". *)
Theorem replay_contract_amended :
  (forall (d : string) (evs : list dict),
     Forall (fun e => is_state_changed e = true -> data_is_mapping e = true) evs ->
     replay d evs = Ok (replay_amended d evs))
  /\ (forall d i1 i2 i3 t1 t2 t3 c1 c2 c3 (button card : dict),
        replay d
          [ event_record i1 t1 c1 "state.changed" (component_created (JDict button));
            event_record i2 t2 c2 "state.changed" (theme_changed (JStr "dark"));
            event_record i3 t3 c3 "state.changed" (component_created (JDict card)) ]
        = Ok (mkState [JDict button; JDict card] (JStr "dark"))).
Proof.
  split.
  - intros d evs H. unfold replay, replay_amended. apply replay_from_amended. exact H.
  - intros. reflexivity.
Qed.

Lemma replay_contract_amended_witness :
  Forall (fun e => is_state_changed e = true -> data_is_mapping e = true) sample_events
  /\ replay "light" sample_events
     = Ok (mkState [sample_button; sample_card] (JStr "dark")).
Proof.
  assert (H : Forall (fun e => is_state_changed e = true -> data_is_mapping e = true)
                     sample_events).
  { repeat constructor. }
  split; [exact H|].
  exact (proj1 replay_contract_amended "light" sample_events H).
Defined.

(** C2 fails on the code: a "state.changed" event whose [data] is the string
    "x" makes the loop call [.get] on a string; replay raises
    [AttributeError] and produces no State. *)
Theorem replay_fails_on_string_data :
  forall d : string, replay d [event_string_data] = Raise AttributeError.
Proof. intros d. reflexivity. Qed.



(** C9: a "state.changed" event of kind "component.created" whose
    [data.component] is not a JSON object is skipped: the turn of the loop
    returns the State unchanged, and replay over a log with the event gives
    what replay over the log without it gives. *)
Theorem replay_skips_non_object_component :
  forall (e data : dict),
    is_state_changed e = true ->
    dict_get e "data" = JDict data ->
    py_eq_str (dict_get data "kind") "component.created" = true ->
    isinstance_dict (dict_get data "component") = false ->
    (forall st, replay_step st e = Ok st)
    /\ (forall d evs1 evs2,
          replay d (evs1 ++ e :: evs2) = replay d (evs1 ++ evs2)).
Proof.
  intros e data Ht Hdata Hkind Hcomp.
  assert (Hstep : forall st, replay_step st e = Ok st).
  { intros st. exact (replay_step_non_object st e data Ht Hdata Hkind Hcomp). }
  split; [exact Hstep|].
  intros d evs1 evs2. unfold replay. rewrite !replay_from_app.
  destruct (replay_from (KuhulState_new d) evs1) as [st|x]; simpl; [|reflexivity].
  rewrite Hstep. reflexivity.
Qed.

Lemma replay_skips_non_object_component_witness :
  (forall st, replay_step st event_string_component = Ok st)
  /\ (forall d evs1 evs2,
        replay d (evs1 ++ event_string_component :: evs2) = replay d (evs1 ++ evs2)).
Proof.
  exact (replay_skips_non_object_component event_string_component
           [("kind", JStr "component.created"); ("component", JStr "button")]
           eq_refl eq_refl eq_refl eq_refl).
Defined.


(** * The provider client *)

Section ProviderFacts.
Context `{D : Deps}.

Lemma PROVIDERS_lookup (provider : string) (config : ProviderConfig) :
  PROVIDERS !! provider = Some config ->
  (provider, config) ∈ PROVIDERS_items.
Proof. unfold PROVIDERS. apply elem_of_list_to_map_2. Qed.

(** Every entry of the table names an environment variable for its key. *)
Lemma PROVIDERS_have_key_env (provider : string) (config : ProviderConfig) :
  PROVIDERS !! provider = Some config ->
  exists env, api_key_env config = Some env /\ truthy_opt (Some env) = true.
Proof.
  intros H. apply PROVIDERS_lookup in H. unfold PROVIDERS_items in H.
  repeat (apply elem_of_cons in H; destruct H as [H | H];
          [injection H as _ ->; eexists; split; reflexivity |]).
  apply elem_of_nil in H. contradiction.
Qed.

End ProviderFacts.

(** C10: for every provider of the table, when no API key is passed (or an
    empty one) and the provider's environment variable is unset or empty,
    [request_chat] raises a [ProviderError] whose message names that
    variable, and the world is as it was: no request has been sent. *)
Theorem request_chat_missing_key `{D : Deps} :
  forall (provider : string) (config : ProviderConfig) (model message : string)
         (system : option string) (temperature : spec_float) (max_tokens : Z)
         (base_url_arg api_key : option string) (s : Sys),
    PROVIDERS !! provider = Some config ->
    truthy_opt api_key = false ->
    exists env,
      api_key_env config = Some env
      /\ (truthy_opt (environ s !! env) = false ->
          request_chat provider model message system temperature max_tokens
            base_url_arg api_key s
          = (Raise (ProviderError
                      ("Missing API key. Set " +:+ env
                       +:+ " or pass --api-key for " +:+ provider +:+ ".")), s)).
Proof.
  intros provider config model message system temperature max_tokens
         base_url_arg api_key s Hp Hkey.
  destruct (PROVIDERS_have_key_env provider config Hp) as (env & Henv & Htrue).
  exists env. split; [exact Henv|]. intros Hunset.
  unfold request_chat. rewrite Hp, Hkey, Henv, Htrue.
  unfold bind, os_getenv, opt_or. simpl in Htrue.
  destruct (String.eqb env "") eqn:He; [discriminate Htrue|].
  rewrite Hunset. reflexivity.
Qed.

Lemma request_chat_missing_key_witness :
  request_chat (D := sample_deps) "inference" "llama" "hi" None half 512 None None
    (sample_sys ∅ server_hello)
  = (Raise (ProviderError
              "Missing API key. Set INFERENCE_API_KEY or pass --api-key for inference."),
     sample_sys ∅ server_hello).
Proof.
  destruct (request_chat_missing_key (D := sample_deps) "inference"
              (mkProviderConfig "inference" "http://localhost:11434/v1"
                 (Some "INFERENCE_API_KEY") "openai")
              "llama" "hi" None half 512 None None (sample_sys ∅ server_hello)
              eq_refl eq_refl) as (env & Henv & Hrun).
  injection Henv as <-. exact (Hrun eq_refl).
Defined.

(** C6 fails on the code: when the server answers 200 with a body whose
    first choice is a number, [request_chat] lets an [AttributeError] out;
    when the message content is a number, it returns that number as the
    content, not a string. *)
Theorem request_chat_leaks_other_failures :
  fst (request_chat (D := sample_deps) "openai" "gpt" "hi" None half 512 None (Some "sk")
         (sample_sys ∅ server_choice_number))
  = Raise AttributeError
  /\ fst (request_chat (D := sample_deps) "openai" "gpt" "hi" None half 512 None (Some "sk")
            (sample_sys ∅ server_content_number))
     = Ok (JInt 5, [("request_url", JStr "https://api.openai.com/v1/chat/completions")]).
Proof. split; vm_compute; reflexivity. Qed.

(** * What the effects do to the files *)

Section EffectFacts.
Context `{D : Deps}.

Lemma bind_ok {A B} (m : M A) (k : A -> M B) (s s' : Sys) (a : A) :
  m s = (Ok a, s') -> bind m k s = k a s'.
Proof. unfold bind. intros ->. reflexivity. Qed.

Lemma bind_raise {A B} (m : M A) (k : A -> M B) (s s' : Sys) (e : exn) :
  m s = (Raise e, s') -> bind m k s = (Raise e, s').
Proof. unfold bind. intros ->. reflexivity. Qed.

(** The record [make_cmd] returns, the id coming from the generator. *)
Lemma make_cmd_run (session op : string) (args : dict) (source_kind who : string)
    (s : Sys) :
  let ts := clock s (ticks s) in
  let r := IdGen_next_id (idgen s) "cmd" ts in
  make_cmd session op args source_kind who s
  = (Ok [("@type", JStr "kuhul.command"); ("@v", JStr "1.0.0");
         ("id", JStr (fst r)); ("ts_ms", JInt ts);
         ("source", JDict [("kind", JStr source_kind); ("who", JStr who);
                           ("session", JStr session)]);
         ("op", JStr op); ("args", JDict args)],
     set_idgen (snd r) (set_ticks (S (ticks s)) s)).
Proof. reflexivity. Qed.

(** An event emitted on the bus of [main] is one more line of the event log;
    the State is not touched. *)
Lemma Engine_emit_event_main (args : Args) (ts : Z) (cause : json) (topic : string)
    (data : json) (s : Sys) :
  exists id s',
    Engine_emit_event (main_bus args) ts cause topic data s
    = (Ok (event_record id ts cause topic data), s')
    /\ files s' = <[event_log_path args :=
                      lines s (event_log_path args)
                      ++ [Some (event_record id ts cause topic data)]]> (files s)
    /\ state s' = state s.
Proof.
  unfold Engine_emit_event, bind, next_id, EventBus_publish, bind, SessionLog_append,
    main_bus, lines. simpl.
  destruct (quiet args); simpl; eexists _, _; repeat split; reflexivity.
Qed.

(** ** Relating the files before and after a computation *)

#[local] Instance agree_off_preorder (p : string) : PreOrder (agree_off p).
Proof.
  split.
  - intros f q _. reflexivity.
  - intros f g h Hfg Hgh q Hq. rewrite (Hgh q Hq). apply Hfg. exact Hq.
Qed.

Section Respects.
Context (R : relation fs) `{!PreOrder R}.

Lemma respects_bind {A B} (m : M A) (k : A -> M B) :
  respects R m -> (forall a, respects R (k a)) -> respects R (bind m k).
Proof.
  intros Hm Hk s. unfold bind. specialize (Hm s).
  destruct (m s) as [[a|e] s']; simpl in *; [|exact Hm].
  transitivity (files s'); [exact Hm | apply Hk].
Qed.

Lemma respects_same {A} (m : M A) :
  (forall s, files (snd (m s)) = files s) -> respects R m.
Proof. intros H s. rewrite H. reflexivity. Qed.

Lemma respects_ret {A} (a : A) : respects R (ret a).
Proof. apply respects_same. reflexivity. Qed.
Lemma respects_raise {A} (e : exn) : respects R (raise (A := A) e).
Proof. apply respects_same. reflexivity. Qed.
Lemma respects_lift {A} (r : result A) : respects R (lift r).
Proof. apply respects_same. reflexivity. Qed.
Lemma respects_now_ms : respects R now_ms.
Proof. apply respects_same. reflexivity. Qed.
Lemma respects_next_id (kind : string) (ts : Z) : respects R (next_id kind ts).
Proof. apply respects_same. reflexivity. Qed.
Lemma respects_print (l : out_line) : respects R (print l).
Proof. apply respects_same. reflexivity. Qed.
Lemma respects_print_err (l : string) : respects R (print_err l).
Proof. apply respects_same. reflexivity. Qed.
Lemma respects_write_text (path text : string) : respects R (write_text path text).
Proof. apply respects_same. reflexivity. Qed.
Lemma respects_os_getenv (name : string) : respects R (os_getenv name).
Proof. apply respects_same. reflexivity. Qed.
Lemma respects_get_state : respects R get_state.
Proof. apply respects_same. reflexivity. Qed.
Lemma respects_put_state (st : KuhulState) : respects R (put_state st).
Proof. apply respects_same. reflexivity. Qed.
Lemma respects_process_start : respects R process_start.
Proof. apply respects_same. reflexivity. Qed.
Lemma respects_read_all (path : string) : respects R (SessionLog_read_all path).
Proof. apply respects_same. reflexivity. Qed.
Lemma respects_post_json (url : string) (payload : json) (headers : list (string * string)) :
  respects R (_post_json url payload headers).
Proof.
  apply respects_same. intros s. unfold _post_json.
  destruct (server s _) as [? ?|?|[?|]]; reflexivity.
Qed.
Lemma respects_printer (e : dict) : respects R (printer e).
Proof. apply respects_print. Qed.

Lemma respects_try_provider {A} (m : M A) :
  respects R m -> respects R (try_provider m).
Proof.
  intros H s. unfold try_provider. specialize (H s).
  destruct (m s) as [[a|[]] s']; exact H.
Qed.

End Respects.

Ltac effects_step :=
  first
    [ match goal with |- PreOrder _ => exact _ end
    | apply respects_ret | apply respects_raise | apply respects_lift
    | apply respects_now_ms | apply respects_next_id | apply respects_print
    | apply respects_print_err | apply respects_write_text | apply respects_os_getenv
    | apply respects_get_state | apply respects_put_state
    | apply respects_process_start | apply respects_read_all
    | apply respects_post_json | apply respects_printer
    | apply respects_try_provider
    | (apply respects_bind; [ .. | intros ?])
    | match goal with
      | |- respects _ (if ?c then _ else _) => destruct c
      | |- respects _ (match ?x with _ => _ end) => destruct x
      end ].
Ltac effects := repeat effects_step.
Tactic Notation "effects" "with" tactic3(tac) := repeat first [tac | effects_step].

(** The provider client leaves the files alone. *)
Lemma respects_request_chat (R : relation fs) `{!PreOrder R}
    (provider model message : string) (system : option string)
    (temperature : spec_float) (max_tokens : Z) (base_url_arg api_key : option string) :
  respects R (request_chat provider model message system temperature max_tokens
                base_url_arg api_key).
Proof.
  unfold request_chat, _request_anthropic, _request_openai_compatible. effects.
Qed.

Lemma request_chat_files (provider model message : string) (system : option string)
    (temperature : spec_float) (max_tokens : Z) (base_url_arg api_key : option string)
    (s : Sys) :
  files (snd (request_chat provider model message system temperature max_tokens
                base_url_arg api_key s)) = files s.
Proof.
  symmetry.
  exact (respects_request_chat eq provider model message system temperature
           max_tokens base_url_arg api_key s).
Qed.












End EffectFacts.


(** * The claims about the chat subcommand, the logs and the engine *)

(** C5: [main] on a chat invocation first issues the "ai.chat" Command (its
    id is [cid]) and logs it; then, by the outcome of [request_chat]: on a
    [ProviderError] with message [msg] it returns 1 and the files are those
    after the Command was logged plus exactly one record in the event log,
    the Event "ai.chat.failed" with data [{provider, error: msg}] caused by
    [cid]; on success with [(content, meta)] it returns 0 and the one added
    record is the Event "ai.chat.completed" with data
    [{provider, model, response: content, meta}] caused by [cid].  Any other
    exception leaves [main] as it is, with no event. *)
Theorem chat_records_outcome `{D : Deps} :
  forall (session out : string) (events : option string) (quiet : bool)
         (provider model message : string) (system : option string)
         (temperature : spec_float) (max_tokens : Z)
         (base_url_arg api_key : option string) (s : Sys),
    let args := mkArgs session out events quiet
                  (CmdChat provider model message system temperature max_tokens
                     base_url_arg api_key) in
    exists (command : dict) (cid : string) (s1 : Sys),
      make_cmd session "ai.chat"
        (chat_cmd_args provider model message system temperature max_tokens)
        "cli" "local" (snd (process_start s)) = (Ok command, s1)
      /\ dict_item command "id" = Ok (JStr cid)
      /\ let s2 := snd (SessionLog_append (cmd_log_path args) command s1) in
         let one_event (topic : string) (data : json) (s' : Sys) :=
           exists id ts,
             files s' = <[event_log_path args :=
                            lines s2 (event_log_path args)
                            ++ [Some (event_record id ts (JStr cid) topic data)]]>
                          (files s2) in
         match request_chat provider model message system temperature max_tokens
                 base_url_arg api_key s2 with
         | (Raise (ProviderError msg), _) =>
             exists s', main args s = (Ok 1, s')
               /\ one_event "ai.chat.failed"
                    (JDict [("provider", JStr provider); ("error", JStr msg)]) s'
         | (Ok (content, meta), _) =>
             exists s', main args s = (Ok 0, s')
               /\ one_event "ai.chat.completed"
                    (JDict [("provider", JStr provider); ("model", JStr model);
                            ("response", content); ("meta", JDict meta)]) s'
         | (Raise other, s3) =>
             main args s = (Raise other, s3) /\ files s3 = files s2
         end.
Proof.
  intros session out events quiet provider model message system temperature
         max_tokens base_url_arg api_key s args.
  eexists _, _, _. split; [apply make_cmd_run|]. split; [reflexivity|].
  cbv zeta.
  match goal with
  | |- context [request_chat _ _ _ _ _ _ _ _ ?s2] => set (w := s2)
  end.
  assert (Hmain : main args s
    = bind (try_provider (request_chat provider model message system temperature
                            max_tokens base_url_arg api_key))
        (fun answer =>
           match answer with
           | inr error =>
               bind now_ms (fun ts =>
               bind (Engine_emit_event (main_bus args) ts
                       (JStr (fst (IdGen_next_id (idgen (snd (process_start s))) "cmd"
                                (clock (snd (process_start s))
                                   (ticks (snd (process_start s)))))))
                       "ai.chat.failed"
                       (JDict [("provider", JStr provider); ("error", JStr error)]))
                 (fun _ => bind (print_err ("Error: " +:+ error)) (fun _ => ret 1)))
           | inl (content, meta) =>
               bind now_ms (fun ts =>
               bind (Engine_emit_event (main_bus args) ts
                       (JStr (fst (IdGen_next_id (idgen (snd (process_start s))) "cmd"
                                (clock (snd (process_start s))
                                   (ticks (snd (process_start s)))))))
                       "ai.chat.completed"
                       (JDict [("provider", JStr provider); ("model", JStr model);
                               ("response", content); ("meta", JDict meta)]))
                 (fun _ => bind (print (OutValue content)) (fun _ => ret 0)))
           end) w).
  { reflexivity. }
  pose proof (request_chat_files provider model message system temperature max_tokens
                base_url_arg api_key w) as Hfiles.
  destruct (request_chat provider model message system temperature max_tokens
              base_url_arg api_key w) as [[[content meta]|x] s3] eqn:Hchat;
    simpl in Hfiles.
  - rewrite Hmain. unfold bind at 1. unfold try_provider. rewrite Hchat.
    unfold bind at 1. unfold now_ms at 1.
    destruct (Engine_emit_event_main args (clock s3 (ticks s3))
                (JStr (fst (IdGen_next_id (idgen (snd (process_start s))) "cmd"
                         (clock (snd (process_start s)) (ticks (snd (process_start s)))))))
                "ai.chat.completed"
                (JDict [("provider", JStr provider); ("model", JStr model);
                        ("response", content); ("meta", JDict meta)])
                (set_ticks (S (ticks s3)) s3)) as (id & s' & Hrun & Hf & _).
    rewrite (bind_ok _ _ _ _ _ Hrun).
    eexists. split; [reflexivity|]. exists id, (clock s3 (ticks s3)).
    simpl. rewrite Hf. unfold lines. simpl. rewrite Hfiles. reflexivity.
  - destruct x as [msg| | | | | | |];
      rewrite Hmain; unfold bind at 1; unfold try_provider; rewrite Hchat;
      try (split; [reflexivity | exact Hfiles]).
    unfold bind at 1. unfold now_ms at 1.
    destruct (Engine_emit_event_main args (clock s3 (ticks s3))
                (JStr (fst (IdGen_next_id (idgen (snd (process_start s))) "cmd"
                         (clock (snd (process_start s)) (ticks (snd (process_start s)))))))
                "ai.chat.failed"
                (JDict [("provider", JStr provider); ("error", JStr msg)])
                (set_ticks (S (ticks s3)) s3)) as (id & s' & Hrun & Hf & _).
    rewrite (bind_ok _ _ _ _ _ Hrun).
    eexists. split; [reflexivity|]. exists id, (clock s3 (ticks s3)).
    simpl. rewrite Hf. unfold lines. simpl. rewrite Hfiles. reflexivity.
Qed.

(** * The engine *)

Section EngineFacts.
Context `{D : Deps}.


End EngineFacts.

(** Two runs of the chat subcommand in the sample world, [--quiet]: without
    an API key the provider client fails, [main] returns 1 and the event log
    holds one "ai.chat.failed" event; with a key and a server that answers
    "hello", [main] returns 0 and the event log holds one "ai.chat.completed"
    event. *)
Example chat_run_failed :
  let run := main (D := sample_deps) (sample_chat_args None) (sample_sys ∅ server_hello) in
  fst run = Ok 1
  /\ lines (snd run) (event_log_path (sample_chat_args None))
     = [Some (event_record "evt_1001_1" 1001 (JStr "cmd_1000_0") "ai.chat.failed"
                (JDict [("provider", JStr "openai");
                        ("error", JStr "Missing API key. Set OPENAI_API_KEY or pass --api-key for openai.")]))]
  /\ sent (snd run) = [].
Proof. vm_compute. repeat split. Qed.

Example chat_run_completed :
  let run := main (D := sample_deps) (sample_chat_args (Some "sk"))
               (sample_sys ∅ server_hello) in
  fst run = Ok 0
  /\ lines (snd run) (event_log_path (sample_chat_args (Some "sk")))
     = [Some (event_record "evt_1001_1" 1001 (JStr "cmd_1000_0") "ai.chat.completed"
                (JDict [("provider", JStr "openai"); ("model", JStr "gpt");
                        ("response", JStr "hello");
                        ("meta", JDict [("request_url",
                           JStr "https://api.openai.com/v1/chat/completions")])]))].
Proof. vm_compute. repeat split. Qed.






(** C4: the State replay reconstructs depends only on the "state.changed"
    events of the event log.  Dropping every event of another topic from the
    sequence changes nothing; two worlds whose event logs hold the same
    "state.changed" events in the same order give the replay subcommand the
    same State, whatever else the logs and the other files hold; rewriting
    the commands log changes nothing. *)
Theorem replay_depends_on_state_changes_only `{D : Deps} :
  (forall (d : string) (evs : list dict),
     replay d (List.filter is_state_changed evs) = replay d evs)
  /\ (forall (args : Args) (file : option string) (s1 s2 : Sys) (evs1 evs2 : list dict),
        parse_lines (lines s1 (replay_log_path args file)) = Ok evs1 ->
        parse_lines (lines s2 (replay_log_path args file)) = Ok evs2 ->
        List.filter is_state_changed evs1 = List.filter is_state_changed evs2 ->
        fst (replay_state args file s1) = fst (replay_state args file s2))
  /\ (forall (args : Args) (file : option string) (s : Sys)
             (commands : list (option dict)),
        cmd_log_path args <> replay_log_path args file ->
        fst (replay_state args file
               (set_files (<[cmd_log_path args := commands]> (files s)) s))
        = fst (replay_state args file s)).
Proof.
  split; [|split].
  - intros d evs. unfold replay. apply replay_from_filter.
  - intros args file s1 s2 evs1 evs2 H1 H2 Hsame.
    unfold replay_state, load_events, SessionLog_read_all, bind, lift. simpl.
    rewrite H1, H2. simpl. unfold replay.
    rewrite <- (replay_from_filter _ evs1), <- (replay_from_filter _ evs2), Hsame.
    reflexivity.
  - intros args file s commands Hne.
    unfold replay_state, load_events, SessionLog_read_all, bind, lift, lines. simpl.
    rewrite lookup_insert_ne by exact Hne.
    destruct (parse_lines (default [] (files s !! replay_log_path args file)));
      reflexivity.
Qed.

Lemma replay_depends_on_state_changes_only_witness :
  fst (replay_state (D := sample_deps) sample_replay_args None
         (sample_sys_with_events sample_events))
  = fst (replay_state (D := sample_deps) sample_replay_args None
           (sample_sys_with_events sample_state_changes))
  /\ fst (replay_state (D := sample_deps) sample_replay_args None
            (set_files (<[cmd_log_path sample_replay_args := [None]]>
                          (files (sample_sys_with_events sample_events)))
                       (sample_sys_with_events sample_events)))
     = fst (replay_state (D := sample_deps) sample_replay_args None
              (sample_sys_with_events sample_events)).
Proof.
  destruct (replay_depends_on_state_changes_only (D := sample_deps)) as (_ & H2 & H3).
  split.
  - apply (H2 sample_replay_args None _ _ sample_events sample_state_changes);
      vm_compute; reflexivity.
  - apply H3. vm_compute. intros H. discriminate H.
Defined.

(** * More on the replay fold (cli.py, lines 199-212) *)

Section ReplayMore.

Lemma replay_step_breaks (st : KuhulState) (e : dict) :
  data_breaks e = true -> replay_step st e = Raise AttributeError.
Proof.
  unfold data_breaks, data_is_mapping, replay_step. fold (is_state_changed e).
  intros H. apply andb_true_iff in H as [-> H]. simpl.
  destruct (dict_get_default e "data" (JDict [])) as [| b | n | f | s | l | d];
    cbn [negb] in H; try discriminate H; rewrite negb_involutive in H;
    unfold py_or; rewrite H; reflexivity.
Qed.

Lemma replay_step_total (st : KuhulState) (e : dict) :
  data_breaks e = false -> exists st', replay_step st e = Ok st'.
Proof.
  intros H. eexists. apply replay_step_amended. intros Ht.
  unfold data_breaks in H. rewrite Ht in H. simpl in H.
  apply negb_false_iff in H. exact H.
Qed.

(** What a successful turn of the loop does, field by field. *)
Lemma replay_step_fields (st st' : KuhulState) (e : dict) :
  replay_step st e = Ok st' ->
  components st' = components st ++ option_list (appended_component e)
  /\ theme st' = default (theme st) (assigned_theme e).
Proof.
  unfold replay_step, appended_component, assigned_theme. fold (is_state_changed e).
  destruct (is_state_changed e); cbn [negb].
  2:{ intros H. injection H as <-. simpl. rewrite app_nil_r. split; reflexivity. }
  destruct (py_or (dict_get_default e "data" (JDict [])) (JDict []))
    as [| b | n | f | s | l | d]; cbn [rbind py_get]; try discriminate.
  destruct (py_eq_str (dict_get d "kind") "component.created").
  { destruct (dict_get d "component"); cbn [isinstance_dict]; intros H;
      injection H as <-; simpl; rewrite ?app_nil_r; split; reflexivity. }
  destruct (py_eq_str (dict_get d "kind") "theme.changed").
  { destruct (py_in_strs (dict_get d "to") ["dark"; "light"]);
      intros H; injection H as <-; simpl; rewrite app_nil_r; split; reflexivity. }
  intros H. injection H as <-. simpl. rewrite app_nil_r. split; reflexivity.
Qed.

Lemma default_last_app {A} (d : A) (l1 l2 : list A) :
  default d (last (l1 ++ l2)) = default (default d (last l1)) (last l2).
Proof.
  rewrite last_app. destruct (last l2); reflexivity.
Qed.

Lemma replay_from_fields (st st' : KuhulState) (evs : list dict) :
  replay_from st evs = Ok st' ->
  components st' = components st ++ omap appended_component evs
  /\ theme st' = default (theme st) (last (omap assigned_theme evs)).
Proof.
  revert st. induction evs as [|e evs IH]; intros st; simpl.
  - intros H. injection H as <-. rewrite app_nil_r. split; reflexivity.
  - destruct (replay_step st e) as [st1|x] eqn:Hstep; simpl; [|discriminate].
    intros H. destruct (IH st1 H) as [Hc Ht].
    destruct (replay_step_fields st st1 e Hstep) as [Hc1 Ht1].
    rewrite Hc, Ht, Hc1, Ht1. split.
    + rewrite <- app_assoc. f_equal. simpl.
      destruct (appended_component e); reflexivity.
    + destruct (assigned_theme e) as [t|] eqn:Ha; [|reflexivity].
      exact (eq_sym (default_last_app (theme st) [t] (omap assigned_theme evs))).
Qed.

Lemma replay_from_raises (st : KuhulState) (evs : list dict) :
  (exists x, replay_from st evs = Raise x)
  <-> Exists (fun e => data_breaks e = true) evs.
Proof.
  revert st. induction evs as [|e evs IH]; intros st; simpl.
  - split; [intros [x H]; discriminate H | intros H; inversion H].
  - destruct (data_breaks e) eqn:Hb.
    + rewrite (replay_step_breaks st e Hb). simpl. split.
      * intros _. apply Exists_cons_hd. exact Hb.
      * intros _. eexists. reflexivity.
    + destruct (replay_step_total st e Hb) as [st1 ->]. simpl.
      rewrite IH. split.
      * intros H. apply Exists_cons_tl. exact H.
      * intros H. inversion H as [? ? Hhd | ? ? Htl]; subst;
          [rewrite Hb in Hhd; discriminate Hhd | exact Htl].
Qed.

Lemma replay_from_raises_attribute_error (st : KuhulState) (evs : list dict) (x : exn) :
  replay_from st evs = Raise x -> x = AttributeError.
Proof.
  revert st. induction evs as [|e evs IH]; intros st; simpl; [discriminate|].
  destruct (data_breaks e) eqn:Hb.
  - rewrite (replay_step_breaks st e Hb). simpl. congruence.
  - destruct (replay_step_total st e Hb) as [st1 ->]. simpl. apply IH.
Qed.

End ReplayMore.

(** X1: replay is incremental.  Replaying a log made of a prefix and a
    suffix is replaying the suffix from the State the prefix gives; when the
    prefix fails, the whole replay fails the same way. *)
Theorem replay_continues_from_prefix :
  forall (d : string) (evs1 evs2 : list dict),
    replay d (evs1 ++ evs2)
    = match replay d evs1 with
      | Ok st1 => replay_from st1 evs2
      | Raise x => Raise x
      end.
Proof.
  intros d evs1 evs2. unfold replay. rewrite replay_from_app.
  destruct (replay_from (KuhulState_new d) evs1); reflexivity.
Qed.

(** X2: when replay returns a State, its components are exactly the
    components of the "component.created" state changes that are JSON
    objects, in log order: nothing else adds, removes or reorders a
    component, and every component of the State is a JSON object. *)
Theorem replay_components_are_created_objects :
  forall (d : string) (evs : list dict) (st : KuhulState),
    replay d evs = Ok st ->
    components st = omap appended_component evs
    /\ Forall (fun c => isinstance_dict c = true) (components st).
Proof.
  intros d evs st H. destruct (replay_from_fields _ _ _ H) as [Hc _].
  simpl in Hc. split; [exact Hc|]. rewrite Hc. clear.
  induction evs as [|e evs IH]; simpl; [constructor|].
  destruct (appended_component e) as [c|] eqn:Hc; [|exact IH].
  constructor; [|exact IH]. unfold appended_component in Hc.
  destruct (is_state_changed e); [|discriminate Hc].
  destruct (py_or _ _) as [| | | | | |data]; try discriminate Hc.
  destruct (py_eq_str _ _); [|discriminate Hc].
  destruct (dict_get data "component"); try discriminate Hc.
  injection Hc as <-. reflexivity.
Qed.

Lemma replay_components_are_created_objects_witness :
  components (mkState [sample_button; sample_card] (JStr "dark"))
  = omap appended_component sample_events
  /\ Forall (fun c => isinstance_dict c = true)
            (components (mkState [sample_button; sample_card] (JStr "dark"))).
Proof.
  exact (replay_components_are_created_objects "light" sample_events
           (mkState [sample_button; sample_card] (JStr "dark")) eq_refl).
Defined.

(** X3: when replay returns a State, its theme is the [to] of the last
    "theme.changed" state change naming "dark" or "light", and the default
    theme when the log has none; so it is always one of those three. *)
Theorem replay_theme_is_last_valid_change :
  forall (d : string) (evs : list dict) (st : KuhulState),
    replay d evs = Ok st ->
    theme st = default (JStr d) (last (omap assigned_theme evs))
    /\ (theme st = JStr d \/ theme st = JStr "dark" \/ theme st = JStr "light").
Proof.
  intros d evs st H. destruct (replay_from_fields _ _ _ H) as [_ Ht].
  simpl in Ht. split; [exact Ht|]. rewrite Ht.
  destruct (last (omap assigned_theme evs)) as [t|] eqn:Hl; simpl; [|left; reflexivity].
  right. apply last_Some_elem_of in Hl. apply list_elem_of_omap in Hl.
  destruct Hl as (e & _ & He). unfold assigned_theme in He.
  destruct (is_state_changed e); [|discriminate He].
  destruct (py_or _ _) as [| | | | | |data]; try discriminate He.
  destruct (py_eq_str _ "component.created"); [discriminate He|].
  destruct (py_eq_str _ "theme.changed"); [|discriminate He].
  destruct (dict_get data "to") as [| | | |tname| |]; simpl in He;
    try discriminate He.
  destruct (String.eqb tname "dark") eqn:E1; simpl in He.
  { apply String.eqb_eq in E1. subst tname. injection He as <-. left. reflexivity. }
  destruct (String.eqb tname "light") eqn:E2; simpl in He; [|discriminate He].
  apply String.eqb_eq in E2. subst tname. injection He as <-. right. reflexivity.
Qed.

Lemma replay_theme_is_last_valid_change_witness :
  theme (mkState [sample_button; sample_card] (JStr "dark"))
  = default (JStr "light") (last (omap assigned_theme sample_events))
  /\ (theme (mkState [sample_button; sample_card] (JStr "dark")) = JStr "light"
      \/ theme (mkState [sample_button; sample_card] (JStr "dark")) = JStr "dark"
      \/ theme (mkState [sample_button; sample_card] (JStr "dark")) = JStr "light").
Proof.
  exact (replay_theme_is_last_valid_change "light" sample_events
           (mkState [sample_button; sample_card] (JStr "dark")) eq_refl).
Defined.

(** X4: the exact outcome of replay.  It raises, and then an
    [AttributeError], exactly when some "state.changed" event of the log has
    a [data] that is neither a mapping nor a value Python takes for false;
    on every other log it returns the State of the amended contract. *)
Theorem replay_outcome :
  forall (d : string) (evs : list dict),
    replay d evs
    = if existsb data_breaks evs then Raise AttributeError
      else Ok (replay_amended d evs).
Proof.
  intros d evs. destruct (existsb data_breaks evs) eqn:Hex.
  - assert (Hraise : exists x, replay d evs = Raise x).
    { apply replay_from_raises. apply existsb_exists in Hex.
      destruct Hex as (e & Hin & Hb). apply Exists_exists. exists e.
      split; [apply list_elem_of_In; exact Hin | exact Hb]. }
    destruct Hraise as [x Hx]. rewrite Hx. f_equal.
    exact (replay_from_raises_attribute_error _ _ _ Hx).
  - unfold replay, replay_amended. apply replay_from_amended.
    apply Forall_forall. intros e Hin Ht.
    destruct (data_is_mapping e) eqn:Hm; [reflexivity|].
    assert (Hb : data_breaks e = true).
    { unfold data_breaks. rewrite Ht, Hm. reflexivity. }
    assert (Hall : existsb data_breaks evs = true).
    { apply existsb_exists. exists e. split; [apply list_elem_of_In; exact Hin | exact Hb]. }
    rewrite Hall in Hex. discriminate Hex.
Qed.


(** * More on the provider client (providers.py) *)

Section ProviderMore.
Context `{D : Deps}.

Lemma set_sent_nil (s : Sys) : set_sent (sent s ++ []) s = s.
Proof. destruct s. unfold set_sent. simpl. rewrite app_nil_r. reflexivity. Qed.

Lemma _request_openai_compatible_run (base key model message : string)
    (system : option string) (temperature : spec_float) (max_tokens : Z)
    (config : ProviderConfig) (s : Sys) :
  key <> "" ->
  String.eqb (kind config) "anthropic" = false ->
  let req := openai_request base key model message system temperature max_tokens in
  _request_openai_compatible base (Some key) model message system temperature
    max_tokens s
  = (answer config req (server s req), set_sent (sent s ++ [req]) s).
Proof.
  intros Hk Hkind req.
  unfold req, openai_request, _request_openai_compatible, bind, _post_json, lift,
    answer, content_of.
  rewrite Hkind. simpl. apply String.eqb_neq in Hk. rewrite Hk. simpl.
  match goal with
  | |- context [server s ?r] =>
      destruct (server s r) as [code detail|reason|[data|]]; try reflexivity
  end.
  destruct (openai_content data) as [content|x]; [|reflexivity].
  destruct (truthy content); reflexivity.
Qed.

Lemma _request_anthropic_run (base key model message : string)
    (system : option string) (temperature : spec_float) (max_tokens : Z)
    (config : ProviderConfig) (s : Sys) :
  key <> "" ->
  String.eqb (kind config) "anthropic" = true ->
  let req := anthropic_request base key model message system temperature max_tokens in
  _request_anthropic base (Some key) model message system temperature max_tokens s
  = (answer config req (server s req), set_sent (sent s ++ [req]) s).
Proof.
  intros Hk Hkind req.
  unfold req, anthropic_request, _request_anthropic, bind, _post_json, lift, answer,
    content_of.
  rewrite Hkind. simpl. apply String.eqb_neq in Hk. rewrite Hk. simpl.
  match goal with
  | |- context [server s ?r] =>
      destruct (server s r) as [code detail|reason|[data|]]; try reflexivity
  end.
  destruct (anthropic_content data) as [content|x]; [|reflexivity].
  destruct (truthy content); reflexivity.
Qed.

(** With a provider of the table and a key, [request_chat] is one exchange
    with the server. *)
Lemma request_chat_run (provider : string) (config : ProviderConfig)
    (model message : string) (system : option string) (temperature : spec_float)
    (max_tokens : Z) (base_url_arg api_key : option string) (k : string) (s : Sys) :
  PROVIDERS !! provider = Some config ->
  uses_key api_key config s k ->
  let req := chat_request config base_url_arg k model message system temperature
               max_tokens in
  request_chat provider model message system temperature max_tokens base_url_arg
    api_key s
  = (answer config req (server s req), set_sent (sent s ++ [req]) s).
Proof.
  intros Hp [Hk Hkey] req.
  destruct (PROVIDERS_have_key_env provider config Hp) as (env0 & Henv0 & Htrue0).
  assert (Hkt : truthy_opt (Some k) = true).
  { simpl. apply String.eqb_neq in Hk. rewrite Hk. reflexivity. }
  assert (Hres : (if truthy_opt api_key then ret api_key
                  else if truthy_opt (api_key_env config)
                       then os_getenv (opt_or (api_key_env config) "")
                       else ret None) s = (Ok (Some k), s)).
  { destruct Hkey as [-> | (Hno & env & Henv & Hlook)].
    - rewrite Hkt. reflexivity.
    - rewrite Hno, Henv0, Htrue0. rewrite Henv0 in Henv. injection Henv as ->.
      unfold os_getenv, opt_or. simpl in Htrue0.
      destruct (String.eqb env "") eqn:He; [discriminate Htrue0|].
      rewrite Hlook. reflexivity. }
  unfold request_chat. rewrite Hp. rewrite (bind_ok _ _ _ _ _ Hres).
  rewrite Henv0, Htrue0, Hkt. cbn [negb andb].
  unfold req, chat_request.
  destruct (String.eqb (kind config) "anthropic") eqn:Hkind.
  - apply _request_anthropic_run; assumption.
  - apply _request_openai_compatible_run; assumption.
Qed.

(** Whatever its arguments and the world, [request_chat] sends at most one
    request and changes nothing else; what it returns on success is a
    content that is not empty with the URL of that request. *)
Lemma request_chat_shape (provider model message : string) (system : option string)
    (temperature : spec_float) (max_tokens : Z) (base_url_arg api_key : option string)
    (s : Sys) :
  exists reqs : list request,
    (length reqs <= 1)%nat
    /\ snd (request_chat provider model message system temperature max_tokens
              base_url_arg api_key s) = set_sent (sent s ++ reqs) s
    /\ forall content meta,
         fst (request_chat provider model message system temperature max_tokens
                base_url_arg api_key s) = Ok (content, meta) ->
         truthy content = true
         /\ exists req, reqs = [req] /\ meta = [("request_url", JStr (req_url req))].
Proof.
  destruct (request_chat provider model message system temperature max_tokens
              base_url_arg api_key s) as [r s'] eqn:Hrun. simpl.
  assert (Hnone : forall msg, (r, s') = (Raise (ProviderError msg), s) ->
            exists reqs : list request,
              (length reqs <= 1)%nat /\ s' = set_sent (sent s ++ reqs) s
              /\ forall content meta, r = Ok (content, meta) ->
                   truthy content = true
                   /\ exists req, reqs = [req]
                                  /\ meta = [("request_url", JStr (req_url req))]).
  { intros msg H. injection H as -> ->. exists []. rewrite set_sent_nil.
    split; [simpl; lia|]. split; [reflexivity|]. intros c m H. discriminate H. }
  assert (Hone : forall (read : json -> result json) (url : string) (payload : json)
                        (headers : list (string * string)),
            (r, s')
            = bind (_post_json url payload headers) (fun data =>
              bind (lift (read data)) (fun content =>
              if negb (truthy content)
              then raise (ProviderError "Empty response from provider")
              else ret (content, [("request_url", JStr url)]))) s ->
            exists reqs : list request,
              (length reqs <= 1)%nat /\ s' = set_sent (sent s ++ reqs) s
              /\ forall content meta, r = Ok (content, meta) ->
                   truthy content = true
                   /\ exists req, reqs = [req]
                                  /\ meta = [("request_url", JStr (req_url req))]).
  { intros read url payload headers H.
    exists [mkRequest url payload headers]. split; [simpl; lia|].
    unfold bind, _post_json, lift in H.
    destruct (server s (mkRequest url payload headers)) as [code detail|reason|[data|]];
      try (injection H as -> ->; split; [reflexivity | intros c m H; discriminate H]).
    destruct (read data) as [content|x];
      [|injection H as -> ->; split; [reflexivity | intros c m H; discriminate H]].
    destruct (truthy content) eqn:Ht; simpl in H; injection H as -> ->;
      (split; [reflexivity|]); intros c m H; [|discriminate H].
    injection H as <- <-. split; [exact Ht|]. eexists. split; reflexivity. }
  unfold request_chat in Hrun.
  destruct (PROVIDERS !! provider) as [config|];
    [|symmetry in Hrun; exact (Hnone _ Hrun)].
  unfold bind at 1 in Hrun.
  assert (Hres : exists key,
            (if truthy_opt api_key then ret api_key
             else if truthy_opt (api_key_env config)
                  then os_getenv (opt_or (api_key_env config) "")
                  else ret None) s = (Ok key, s)).
  { destruct (truthy_opt api_key); [eexists; reflexivity|].
    destruct (truthy_opt (api_key_env config)); eexists; reflexivity. }
  destruct Hres as [key Hres]. rewrite Hres in Hrun.
  destruct (truthy_opt (api_key_env config) && negb (truthy_opt key));
    [symmetry in Hrun; exact (Hnone _ Hrun)|].
  destruct (String.eqb (kind config) "anthropic"); symmetry in Hrun.
  - exact (Hone anthropic_content _ _ _ Hrun).
  - exact (Hone openai_content _ _ _ Hrun).
Qed.

End ProviderMore.

Section StripFacts.



End StripFacts.

(** X6: a provider that is not one of the six of the table is refused with
    the [ProviderError] "Unsupported provider: <name>", before the
    environment is read or anything is sent: the world is unchanged. *)
Theorem request_chat_unsupported_provider `{D : Deps} :
  forall (provider model message : string) (system : option string)
         (temperature : spec_float) (max_tokens : Z)
         (base_url_arg api_key : option string) (s : Sys),
    provider ∉ ["openai"; "mistral"; "deepseek"; "codestral"; "claude"; "inference"] ->
    request_chat provider model message system temperature max_tokens base_url_arg
      api_key s
    = (Raise (ProviderError ("Unsupported provider: " +:+ provider)), s).
Proof.
  intros provider model message system temperature max_tokens base_url_arg api_key s Hp.
  unfold request_chat.
  assert (Hnone : PROVIDERS !! provider = None).
  { unfold PROVIDERS. apply not_elem_of_list_to_map_1. exact Hp. }
  rewrite Hnone. reflexivity.
Qed.

Lemma request_chat_unsupported_provider_witness :
  request_chat (D := sample_deps) "gemini" "pro" "hi" None half 512 None (Some "sk")
    (sample_sys ∅ server_hello)
  = (Raise (ProviderError "Unsupported provider: gemini"), sample_sys ∅ server_hello).
Proof.
  apply (request_chat_unsupported_provider (D := sample_deps)).
  intros H. repeat (apply elem_of_cons in H; destruct H as [H|H]; [discriminate H|]).
  apply elem_of_nil in H. exact H.
Defined.





(** X9: whenever [request_chat] returns, the content is not empty (not
    [None], not the empty string), exactly one request was sent, and the
    meta is the one-entry mapping [{"request_url": <URL of that request>}]. *)
Theorem request_chat_success_shape `{D : Deps} :
  forall (provider model message : string) (system : option string)
         (temperature : spec_float) (max_tokens : Z)
         (base_url_arg api_key : option string) (s s' : Sys)
         (content : json) (meta : dict),
    request_chat provider model message system temperature max_tokens base_url_arg
      api_key s = (Ok (content, meta), s') ->
    truthy content = true
    /\ exists req, sent s' = sent s ++ [req]
                   /\ meta = [("request_url", JStr (req_url req))].
Proof.
  intros provider model message system temperature max_tokens base_url_arg api_key
         s s' content meta Hrun.
  destruct (request_chat_shape provider model message system temperature max_tokens
              base_url_arg api_key s) as (reqs & _ & Hs & Hok).
  rewrite Hrun in Hs, Hok. simpl in Hs, Hok.
  destruct (Hok content meta eq_refl) as (Ht & req & -> & Hm).
  split; [exact Ht|]. exists req. rewrite Hs. split; [reflexivity | exact Hm].
Qed.

Lemma request_chat_success_shape_witness :
  truthy (JStr "hello") = true
  /\ exists req,
       sent (set_sent [openai_request "https://api.openai.com/v1" "sk" "gpt" "hi" None
                         half 512] (sample_sys ∅ server_hello))
       = sent (sample_sys ∅ server_hello) ++ [req]
       /\ [("request_url", JStr "https://api.openai.com/v1/chat/completions")]
          = [("request_url", JStr (req_url req))].
Proof.
  exact (request_chat_success_shape (D := sample_deps) "openai" "gpt" "hi" None half
           512 None (Some "sk") (sample_sys ∅ server_hello) _ _ _ eq_refl).
Defined.

(** X10: [request_chat] sends at most one request and does nothing else: the
    logs, the written files, the environment, the clock, the output streams,
    the generator and the State are as they were. *)
Theorem request_chat_only_sends `{D : Deps} :
  forall (provider model message : string) (system : option string)
         (temperature : spec_float) (max_tokens : Z)
         (base_url_arg api_key : option string) (s : Sys),
    exists reqs : list request,
      (length reqs <= 1)%nat
      /\ snd (request_chat provider model message system temperature max_tokens
                base_url_arg api_key s)
         = set_sent (sent s ++ reqs) s.
Proof.
  intros provider model message system temperature max_tokens base_url_arg api_key s.
  destruct (request_chat_shape provider model message system temperature max_tokens
              base_url_arg api_key s) as (reqs & Hlen & Hs & _).
  exists reqs. split; [exact Hlen | exact Hs].
Qed.

(** X11: with a provider of the table and a key, a 200 answer whose body is
    not a JSON object, or is an object whose "choices" (for the Anthropic
    kind: "content") is absent, null or empty, is the [ProviderError]
    "Empty response from provider". *)
Theorem request_chat_empty_response `{D : Deps} :
  forall (provider : string) (config : ProviderConfig) (model message : string)
         (system : option string) (temperature : spec_float) (max_tokens : Z)
         (base_url_arg api_key : option string) (k : string) (s : Sys) (data : json),
    PROVIDERS !! provider = Some config ->
    uses_key api_key config s k ->
    server s (chat_request config base_url_arg k model message system temperature
                max_tokens) = RespBody (Some data) ->
    (isinstance_dict data = false
     \/ exists d, data = JDict d
                  /\ truthy (dict_get d (if String.eqb (kind config) "anthropic"
                                         then "content" else "choices")) = false) ->
    fst (request_chat provider model message system temperature max_tokens
           base_url_arg api_key s)
    = Raise (ProviderError "Empty response from provider").
Proof.
  intros provider config model message system temperature max_tokens base_url_arg
         api_key k s data Hp Hk Hresp Hdata.
  rewrite (request_chat_run provider config model message system temperature
             max_tokens base_url_arg api_key k s Hp Hk).
  simpl. rewrite Hresp. unfold answer, content_of.
  assert (Hcontent : (if String.eqb (kind config) "anthropic"
                      then anthropic_content data else openai_content data)
                     = Ok (JStr "")).
  { destruct Hdata as [Hnot | (d & -> & Hfalsy)].
    - destruct data; try discriminate Hnot;
        destruct (String.eqb (kind config) "anthropic"); reflexivity.
    - destruct (String.eqb (kind config) "anthropic");
        unfold anthropic_content, openai_content, py_or;
        rewrite Hfalsy; reflexivity. }
  rewrite Hcontent. reflexivity.
Qed.

Lemma request_chat_empty_response_witness :
  fst (request_chat (D := sample_deps) "openai" "gpt" "hi" None half 512 None (Some "sk")
         (sample_sys ∅ server_empty_object))
  = Raise (ProviderError "Empty response from provider").
Proof.
  apply (request_chat_empty_response (D := sample_deps) "openai" openai_config "gpt"
           "hi" None half 512 None (Some "sk") "sk" (sample_sys ∅ server_empty_object)
           (JDict [])).
  - reflexivity.
  - split; [intros H; discriminate H | left; reflexivity].
  - reflexivity.
  - right. exists []. split; reflexivity.
Defined.

(** X12: how an OpenAI-style body is read.  Only the first choice counts.
    When its "message" is an object with a "content" that is not empty, that
    content is the result, whatever "text" holds; when the message is absent,
    null or empty, or its content is, the result is the choice's "text", and
    the empty string when that is absent or empty too. *)
Theorem openai_content_prefers_message :
  forall (d first : dict) (rest : list json),
    dict_get d "choices" = JList (JDict first :: rest) ->
    (forall m, dict_get first "message" = JDict m ->
               truthy (dict_get m "content") = true ->
               openai_content (JDict d) = Ok (dict_get m "content"))
    /\ (forall m, py_or (dict_get first "message") (JDict []) = JDict m ->
                  truthy (dict_get m "content") = false ->
                  openai_content (JDict d)
                  = Ok (py_or (dict_get first "text") (JStr ""))).
Proof.
  intros d first rest Hc. unfold openai_content. rewrite Hc. simpl. split.
  - intros m Hm Ht. rewrite Hm.
    assert (Hor : py_or (JDict m) (JDict []) = JDict m).
    { destruct m; [discriminate Ht | reflexivity]. }
    rewrite Hor. simpl. rewrite Ht. reflexivity.
  - intros m Hm Hf. rewrite Hm. simpl. rewrite Hf. reflexivity.
Qed.

Lemma openai_content_prefers_message_witness :
  openai_content
    (JDict [("choices",
             JList [JDict [("message", JDict [("content", JStr "from message")]);
                           ("text", JStr "from text")];
                    JDict [("message", JDict [("content", JStr "second")])]])])
  = Ok (JStr "from message")
  /\ openai_content (JDict [("choices", JList [JDict [("text", JStr "hi there")]])])
     = Ok (JStr "hi there").
Proof.
  split.
  - exact (proj1 (openai_content_prefers_message
                    [("choices",
                      JList [JDict [("message", JDict [("content", JStr "from message")]);
                                    ("text", JStr "from text")];
                             JDict [("message", JDict [("content", JStr "second")])]])]
                    [("message", JDict [("content", JStr "from message")]);
                     ("text", JStr "from text")]
                    [JDict [("message", JDict [("content", JStr "second")])]]
                    eq_refl)
                 [("content", JStr "from message")] eq_refl eq_refl).
  - exact (proj2 (openai_content_prefers_message
                    [("choices", JList [JDict [("text", JStr "hi there")]])]
                    [("text", JStr "hi there")] [] eq_refl)
                 [] eq_refl eq_refl).
Defined.

(** * More on the command line program (cli.py) *)





(** * What [--quiet] changes (cli.py, lines 122-127, 156, 169, 185, 216) *)

Section QuietFacts.
Context `{D : Deps}.

Ltac blind_prim :=
  intros [] [] H; unfold same_but_stdout, set_stdout in *; simpl in *;
  injection H; intros; subst; split; reflexivity.

Lemma blind_bind {A B} (m1 m2 : M A) (k1 k2 : A -> M B) :
  print_blind m1 m2 -> (forall a, print_blind (k1 a) (k2 a)) ->
  print_blind (bind m1 k1) (bind m2 k2).
Proof.
  intros Hm Hk s1 s2 H. unfold bind. destruct (Hm s1 s2 H) as [Hr Hs].
  destruct (m1 s1) as [[a|e] s1'], (m2 s2) as [[a'|e'] s2']; simpl in *;
    try discriminate Hr.
  - injection Hr as <-. apply Hk. exact Hs.
  - injection Hr as <-. split; [reflexivity | exact Hs].
Qed.

Lemma blind_ret {A} (a : A) : print_blind (ret a) (ret a).
Proof. intros s1 s2 H. split; [reflexivity | exact H]. Qed.
Lemma blind_raise {A} (e : exn) : print_blind (raise (A := A) e) (raise e).
Proof. intros s1 s2 H. split; [reflexivity | exact H]. Qed.
Lemma blind_lift {A} (r : result A) : print_blind (lift r) (lift r).
Proof. intros s1 s2 H. split; [reflexivity | exact H]. Qed.
Lemma blind_now_ms : print_blind now_ms now_ms.
Proof. unfold now_ms. blind_prim. Qed.
Lemma blind_next_id (kind : string) (ts : Z) :
  print_blind (next_id kind ts) (next_id kind ts).
Proof. unfold next_id. blind_prim. Qed.
Lemma blind_print_err (l : string) : print_blind (print_err l) (print_err l).
Proof. unfold print_err. blind_prim. Qed.
Lemma blind_write_text (path text : string) :
  print_blind (write_text path text) (write_text path text).
Proof. unfold write_text. blind_prim. Qed.
Lemma blind_os_getenv (name : string) : print_blind (os_getenv name) (os_getenv name).
Proof. unfold os_getenv. blind_prim. Qed.
Lemma blind_get_state : print_blind get_state get_state.
Proof. unfold get_state. blind_prim. Qed.
Lemma blind_put_state (st : KuhulState) : print_blind (put_state st) (put_state st).
Proof. unfold put_state. blind_prim. Qed.
Lemma blind_process_start : print_blind process_start process_start.
Proof. unfold process_start. blind_prim. Qed.
Lemma blind_read_all (path : string) :
  print_blind (SessionLog_read_all path) (SessionLog_read_all path).
Proof. unfold SessionLog_read_all, lines. blind_prim. Qed.
Lemma blind_append (path : string) (r : dict) :
  print_blind (SessionLog_append path r) (SessionLog_append path r).
Proof. unfold SessionLog_append, lines. blind_prim. Qed.
Lemma blind_post_json (url : string) (payload : json) (headers : list (string * string)) :
  print_blind (_post_json url payload headers) (_post_json url payload headers).
Proof.
  unfold _post_json. intros [] [] H. unfold same_but_stdout, set_stdout in *.
  simpl in *. injection H; intros; subst.
  match goal with
  | |- context [match ?r with RespHTTPError _ _ => _ | _ => _ end] =>
      destruct r as [? ?|?|[?|]]
  end; split; reflexivity.
Qed.

(** Printing is what the relation ignores. *)
Lemma blind_print_l (l : out_line) : print_blind (print l) (ret tt).
Proof. unfold print, ret. blind_prim. Qed.
Lemma blind_print_r (l : out_line) : print_blind (ret tt) (print l).
Proof. unfold print, ret. blind_prim. Qed.
Lemma blind_print (l : out_line) : print_blind (print l) (print l).
Proof. unfold print. blind_prim. Qed.

Lemma blind_notify (e : dict) : print_blind (notify [printer] e) (notify [] e).
Proof. unfold notify, printer, print, ret. blind_prim. Qed.
Lemma blind_notify_nil (e : dict) : print_blind (notify [] e) (notify [] e).
Proof. apply blind_ret. Qed.

Lemma blind_try_provider {A} (m1 m2 : M A) :
  print_blind m1 m2 -> print_blind (try_provider m1) (try_provider m2).
Proof.
  intros Hm s1 s2 H. unfold try_provider. destruct (Hm s1 s2 H) as [Hr Hs].
  destruct (m1 s1) as [[a|e] s1'], (m2 s2) as [[a'|e'] s2']; simpl in *;
    try discriminate Hr; injection Hr as <-; [|destruct e]; split;
    first [reflexivity | exact Hs].
Qed.

Ltac blind_step :=
  first
    [ apply blind_ret | apply blind_raise | apply blind_lift | apply blind_now_ms
    | apply blind_next_id | apply blind_print_err | apply blind_write_text
    | apply blind_os_getenv | apply blind_get_state | apply blind_put_state
    | apply blind_process_start | apply blind_read_all | apply blind_append
    | apply blind_post_json | apply blind_print_l | apply blind_print_r
    | apply blind_print | apply blind_notify | apply blind_notify_nil
    | apply blind_try_provider
    | (apply blind_bind; [| intros ?])
    | match goal with
      | |- print_blind (if ?c then _ else _) (if ?c then _ else _) => destruct c
      | |- print_blind (match ?x with _ => _ end) (match ?x with _ => _ end) =>
          destruct x
      end ].
Ltac blind := repeat blind_step.

Lemma blind_request_chat (provider model message : string) (system : option string)
    (temperature : spec_float) (max_tokens : Z) (base_url_arg api_key : option string) :
  print_blind
    (request_chat provider model message system temperature max_tokens base_url_arg
       api_key)
    (request_chat provider model message system temperature max_tokens base_url_arg
       api_key).
Proof.
  unfold request_chat, _request_anthropic, _request_openai_compatible. blind.
Qed.

(** The loud and the quiet run of [main] on the same arguments. *)
Lemma blind_main (sess odir : string) (evopt : option string) (sub : subcommand) :
  print_blind (main (mkArgs sess odir evopt false sub))
              (main (mkArgs sess odir evopt true sub)).
Proof.
  unfold main, run_engine_command, replay_state, load_events, render_engine_state,
    Engine_apply_command, Engine_state_snapshot, Engine_emit_event,
    EventBus_publish, main_bus, event_log_path, cmd_log_path, svg_path,
    replay_log_path, replay_svg_path, make_cmd.
  cbn [cmd quiet session out events bus_log subscribers].
  blind; apply blind_request_chat.
Qed.

End QuietFacts.

(** X15: [--quiet] changes what is printed and nothing else.  On the same
    arguments and in the same world, the run without and the run with
    [--quiet] give the same result (exit status or exception) and leave the
    same world but for the standard output: the same logs, the same SVG
    files, the same requests sent, the same error output. *)
Theorem quiet_changes_only_stdout `{D : Deps} :
  forall (session out : string) (events : option string) (sub : subcommand) (s : Sys),
    let loud := main (mkArgs session out events false sub) s in
    let silent := main (mkArgs session out events true sub) s in
    fst loud = fst silent
    /\ set_stdout [] (snd loud) = set_stdout [] (snd silent).
Proof.
  intros session out events sub s loud silent.
  exact (blind_main session out events sub s s eq_refl).
Qed.
